(** * The request signer of the OpenAPI client (client/client.go)

    A shallow embedding of [client.OpenAPI], of [R] and of the methods
    [SetQuery], [SetData], [SetAuthorization] and [Send], together with the
    Go library functions they call: [crypto/md5], [crypto/sha256],
    [crypto/hmac], [encoding/hex], [encoding/base64], [net/url], [sort],
    [strings], [fmt]. Of the other libraries, [sonic.Marshal] and the Unicode
    tables of [strings.ToLower] are parameters, and the hertz client is a
    record with its method [Do].

    Go values are represented as follows.
    - [string]: a Rocq [string], a sequence of 8-bit characters, as Go
      strings are sequences of bytes;
    - [[]byte]: [option (list byte)], [None] being the nil slice, because
      [SetAuthorization] tests [x.Body != nil];
    - [map[string]string]: [gmap string string]; a missing key reads as the
      empty string, as in Go;
    - [url.Values]: [option (gmap string (list string))], [None] being the
      nil map, because [SetAuthorization] tests [x.Query != nil];
    - a [range] over a map: the list of its keys in some order; Go leaves the
      order open, so the functions that range take the order as an argument
      and the order-independent facts are proved for every order;
    - [*Client] in [OpenAPI]: the client itself; [R] is the only constructor
      of requests in the package and it always stores the client it is
      called on. *)

From Stdlib Require Import ZArith List Lia.
From Stdlib.Strings Require Import Ascii String Byte.
From stdpp Require Import base gmap strings list sorting fin_maps.

Local Open Scope Z_scope.

#[local] Arguments String.append !_ _ : simpl nomatch.

(** ** Bytes and 32-bit words *)

Definition byte_to_Z (b : byte) : Z := Z.of_N (Byte.to_N b).

Definition byte_of_Z (z : Z) : byte :=
  match Byte.of_N (Z.to_N (z mod 256)) with
  | Some b => b
  | None => x00
  end.

Definition ascii_to_Z (c : ascii) : Z := Z.of_N (N_of_ascii c).

Definition ascii_of_Z (z : Z) : ascii := ascii_of_N (Z.to_N (z mod 256)).

(** [[]byte(s)]. *)
Definition bytes_of_string (s : string) : list byte := list_byte_of_string s.

(** Arithmetic of [uint32]: every result is reduced modulo [2^32]. *)
Definition wrap32 (z : Z) : Z := z mod 2 ^ 32.

Definition add32 (a b : Z) : Z := wrap32 (a + b).

Definition not32 (a : Z) : Z := Z.lxor a 0xffffffff.

(** [bits.RotateLeft32] and a right rotation written through it. *)
Definition rotl32 (a n : Z) : Z :=
  wrap32 (Z.lor (Z.shiftl a n) (Z.shiftr a (32 - n))).

Definition rotr32 (a n : Z) : Z := rotl32 a (32 - n).

(** The bytes of a word, least significant first ([n] of them). *)
Fixpoint le_bytes (n : nat) (z : Z) : list Z :=
  match n with
  | O => []
  | S n' => z mod 256 :: le_bytes n' (z / 256)
  end.

Definition be_bytes (n : nat) (z : Z) : list Z := rev (le_bytes n z).

Definition le_word (bs : list Z) : Z := fold_right (fun b acc => b + 256 * acc) 0 bs.

Definition be_word (bs : list Z) : Z := fold_left (fun acc b => 256 * acc + b) bs 0.

(** Cuts a list into consecutive pieces of [n] elements; [fuel] bounds the
    number of pieces. *)
Fixpoint chunks_fuel {A} (fuel n : nat) (l : list A) : list (list A) :=
  match fuel, l with
  | O, _ => []
  | _, [] => []
  | S fuel', _ => firstn n l :: chunks_fuel fuel' n (skipn n l)
  end.

Definition chunks {A} (n : nat) (l : list A) : list (list A) :=
  chunks_fuel (length l) n l.

(** ** encoding/hex *)

Module Hex.

Definition hextable : string := "0123456789abcdef".

Definition digit (table : string) (z : Z) : ascii :=
  match String.get (Z.to_nat z) table with
  | Some c => c
  | None => "0"%char
  end.

(** [hex.EncodeToString]: two digits of [hextable] for each byte, the high
    half first. *)
Fixpoint EncodeToString (src : list byte) : string :=
  match src with
  | [] => ""
  | b :: src' =>
      let v := byte_to_Z b in
      String (digit hextable (Z.shiftr v 4))
        (String (digit hextable (Z.land v 0x0f)) (EncodeToString src'))
  end.

End Hex.

(** ** encoding/base64 *)

Module Base64.

Definition encodeStd : string :=
  "ABCDEFGHIJKLMNOPQRSTUVWXYZabcdefghijklmnopqrstuvwxyz0123456789+/".

Definition StdPadding : ascii := "="%char.

Definition sextet (z : Z) : ascii := Hex.digit encodeStd (Z.land z 0x3f).

(** [base64.StdEncoding.EncodeToString]: three bytes give four characters;
    a remainder of one or two bytes is padded with [=]. *)
Fixpoint encode (src : list Z) : string :=
  match src with
  | [] => ""
  | [a] =>
      let val := Z.shiftl a 16 in
      String (sextet (Z.shiftr val 18)) (String (sextet (Z.shiftr val 12))
        (String StdPadding (String StdPadding "")))
  | [a; b] =>
      let val := Z.lor (Z.shiftl a 16) (Z.shiftl b 8) in
      String (sextet (Z.shiftr val 18)) (String (sextet (Z.shiftr val 12))
        (String (sextet (Z.shiftr val 6)) (String StdPadding "")))
  | a :: b :: c :: src' =>
      let val := Z.lor (Z.lor (Z.shiftl a 16) (Z.shiftl b 8)) c in
      String (sextet (Z.shiftr val 18)) (String (sextet (Z.shiftr val 12))
        (String (sextet (Z.shiftr val 6)) (String (sextet val) (encode src'))))
  end.

Definition EncodeToString (src : list byte) : string :=
  encode (map byte_to_Z src).

End Base64.

(** ** crypto/md5 *)

Module MD5.

Definition BlockSize : nat := 64.

Definition init : Z * Z * Z * Z :=
  (0x67452301, 0xefcdab89, 0x98badcfe, 0x10325476).

(** The additive constant of each of the 64 steps. *)
Definition table : list Z :=
  [ 0xd76aa478; 0xe8c7b756; 0x242070db; 0xc1bdceee;
    0xf57c0faf; 0x4787c62a; 0xa8304613; 0xfd469501;
    0x698098d8; 0x8b44f7af; 0xffff5bb1; 0x895cd7be;
    0x6b901122; 0xfd987193; 0xa679438e; 0x49b40821;
    0xf61e2562; 0xc040b340; 0x265e5a51; 0xe9b6c7aa;
    0xd62f105d; 0x02441453; 0xd8a1e681; 0xe7d3fbc8;
    0x21e1cde6; 0xc33707d6; 0xf4d50d87; 0x455a14ed;
    0xa9e3e905; 0xfcefa3f8; 0x676f02d9; 0x8d2a4c8a;
    0xfffa3942; 0x8771f681; 0x6d9d6122; 0xfde5380c;
    0xa4beea44; 0x4bdecfa9; 0xf6bb4b60; 0xbebfbc70;
    0x289b7ec6; 0xeaa127fa; 0xd4ef3085; 0x04881d05;
    0xd9d4d039; 0xe6db99e5; 0x1fa27cf8; 0xc4ac5665;
    0xf4292244; 0x432aff97; 0xab9423a7; 0xfc93a039;
    0x655b59c3; 0x8f0ccc92; 0xffeff47d; 0x85845dd1;
    0x6fa87e4f; 0xfe2ce6e0; 0xa3014314; 0x4e0811a1;
    0xf7537e82; 0xbd3af235; 0x2ad7d2bb; 0xeb86d391 ].

(** The rotation of each step: four amounts per round, used in turn. *)
Definition shifts (i : Z) : Z :=
  nth (Z.to_nat (4 * (i / 16) + i mod 4))
    [7; 12; 17; 22; 5; 9; 14; 20; 4; 11; 16; 23; 6; 10; 15; 21] 0.

(** One step of the block function on the state [(a, b, c, d)]. *)
Definition step (m : list Z) (st : Z * Z * Z * Z) (i : Z) : Z * Z * Z * Z :=
  let '(a, b, c, d) := st in
  let '(f, g) :=
    if i <? 16 then (Z.lor (Z.land b c) (Z.land (not32 b) d), i)
    else if i <? 32 then (Z.lor (Z.land d b) (Z.land (not32 d) c), (5 * i + 1) mod 16)
    else if i <? 48 then (Z.lxor (Z.lxor b c) d, (3 * i + 5) mod 16)
    else (Z.lxor c (Z.lor b (not32 d)), (7 * i) mod 16) in
  let sum := add32 (add32 (add32 f a) (nth (Z.to_nat i) table 0))
                   (nth (Z.to_nat g) m 0) in
  (d, add32 b (rotl32 sum (shifts i)), b, c).

(** [block]: one 64-byte block read as sixteen little-endian words. *)
Definition block (st : Z * Z * Z * Z) (p : list Z) : Z * Z * Z * Z :=
  let m := map le_word (chunks 4 p) in
  let '(a, b, c, d) := st in
  let '(a', b', c', d') := fold_left (step m) (map Z.of_nat (seq 0 64)) st in
  (add32 a a', add32 b b', add32 c c', add32 d d').

(** The padding of [checkSum]: a byte [0x80], zero bytes up to 56 modulo
    64, then the length in bits as a little-endian 64-bit word. *)
Definition pad (data : list Z) : list Z :=
  let len := Z.of_nat (length data) in
  data ++ [0x80] ++ repeat 0 (Z.to_nat ((55 - len) mod 64))
       ++ le_bytes 8 ((8 * len) mod 2 ^ 64).

Definition digest (data : list Z) : list Z :=
  let '(a, b, c, d) := fold_left block (chunks BlockSize (pad data)) init in
  le_bytes 4 a ++ le_bytes 4 b ++ le_bytes 4 c ++ le_bytes 4 d.

(** [md5.New(); Write(data); Sum(nil)]. *)
Definition Sum (data : list byte) : list byte :=
  map byte_of_Z (digest (map byte_to_Z data)).

End MD5.

(** ** crypto/sha256 *)

Module SHA256.

Definition BlockSize : nat := 64.

Definition is_prime (n : nat) : bool :=
  (2 <=? Z.of_nat n) && forallb (fun d => negb (Z.of_nat n mod Z.of_nat d =? 0)) (seq 2 (n - 2)).

(** The first sixty-four primes, [2] to [311]. *)
Definition primes : list Z := map Z.of_nat (filter is_prime (seq 0 312)).

(** The integer cube root, one bit at a time from bit [bits - 1] down. *)
Fixpoint icbrt_from (bits : nat) (n r : Z) : Z :=
  match bits with
  | O => r
  | S bits' =>
      let r' := r + 2 ^ Z.of_nat bits' in
      icbrt_from bits' n (if r' * r' * r' <=? n then r' else r)
  end.

Definition icbrt (n : Z) : Z := icbrt_from 40 n 0.

(** The round constants [_K]: the first 32 bits of the fractional parts of
    the cube roots of the first sixty-four primes. *)
Definition _K : list Z :=
  Eval vm_compute in map (fun p => wrap32 (icbrt (p * 2 ^ 96))) primes.

(** The initial state [init0 .. init7]: the first 32 bits of the fractional
    parts of the square roots of the first eight primes. *)
Definition init : list Z :=
  Eval vm_compute in map (fun p => wrap32 (Z.sqrt (p * 2 ^ 64))) (firstn 8 primes).

Definition Ch (x y z : Z) : Z := Z.lxor (Z.land x y) (Z.land (not32 x) z).
Definition Maj (x y z : Z) : Z :=
  Z.lxor (Z.lxor (Z.land x y) (Z.land x z)) (Z.land y z).
Definition bigsigma0 (x : Z) : Z :=
  Z.lxor (Z.lxor (rotr32 x 2) (rotr32 x 13)) (rotr32 x 22).
Definition bigsigma1 (x : Z) : Z :=
  Z.lxor (Z.lxor (rotr32 x 6) (rotr32 x 11)) (rotr32 x 25).
Definition sigma0 (x : Z) : Z :=
  Z.lxor (Z.lxor (rotr32 x 7) (rotr32 x 18)) (Z.shiftr x 3).
Definition sigma1 (x : Z) : Z :=
  Z.lxor (Z.lxor (rotr32 x 17) (rotr32 x 19)) (Z.shiftr x 10).

(** The message schedule [w[0..63]], kept newest first while it is built:
    [w[i] = sigma1 w[i-2] + w[i-7] + sigma0 w[i-15] + w[i-16]]. *)
Fixpoint schedule (n : nat) (rw : list Z) : list Z :=
  match n with
  | O => rev rw
  | S n' =>
      let wi := add32 (add32 (add32 (sigma1 (nth 1 rw 0)) (nth 6 rw 0))
                             (sigma0 (nth 14 rw 0))) (nth 15 rw 0) in
      schedule n' (wi :: rw)
  end.

(** One round on the state [[a; b; c; d; e; f; g; h]]. *)
Definition round (st : list Z) (kw : Z * Z) : list Z :=
  match st with
  | [a; b; c; d; e; f; g; h] =>
      let t1 := add32 (add32 (add32 (add32 h (bigsigma1 e)) (Ch e f g)) (fst kw)) (snd kw) in
      let t2 := add32 (bigsigma0 a) (Maj a b c) in
      [add32 t1 t2; a; b; c; add32 d t1; e; f; g]
  | _ => st
  end.

(** [block]: one 64-byte block read as sixteen big-endian words. *)
Definition block (h : list Z) (p : list Z) : list Z :=
  let w := schedule 48 (rev (map be_word (chunks 4 p))) in
  let st := fold_left round (combine _K w) h in
  map (fun '(x, y) => add32 x y) (combine h st).

(** The padding of [checkSum]: a byte [0x80], zero bytes up to 56 modulo
    64, then the length in bits as a big-endian 64-bit word. *)
Definition pad (data : list Z) : list Z :=
  let len := Z.of_nat (length data) in
  data ++ [0x80] ++ repeat 0 (Z.to_nat ((55 - len) mod 64))
       ++ be_bytes 8 ((8 * len) mod 2 ^ 64).

Definition digest (data : list Z) : list Z :=
  flat_map (be_bytes 4) (fold_left block (chunks BlockSize (pad data)) init).

(** [sha256.New(); Write(data); Sum(nil)]. *)
Definition Sum256 (data : list byte) : list byte :=
  map byte_of_Z (digest (map byte_to_Z data)).

End SHA256.

(** ** crypto/hmac *)

Module HMAC.

(** [hmac.New(sha256.New, key)]: a key longer than the block size is
    replaced by its digest; the key is then padded with zero bytes to the
    block size and combined with [0x36] (inner) and [0x5c] (outer). *)
Definition blockKey (key : list byte) : list Z :=
  let k := if (SHA256.BlockSize <? length key)%nat
           then SHA256.digest (map byte_to_Z key)
           else map byte_to_Z key in
  k ++ repeat 0 (SHA256.BlockSize - length k).

Definition ipad (key : list byte) : list Z :=
  map (fun b => Z.lxor b 0x36) (blockKey key).

Definition opad (key : list byte) : list Z :=
  map (fun b => Z.lxor b 0x5c) (blockKey key).

(** [h := hmac.New(sha256.New, key); h.Write(msg); h.Sum(nil)]. *)
Definition SumSHA256 (key msg : list byte) : list byte :=
  let inner := SHA256.digest (ipad key ++ map byte_to_Z msg) in
  map byte_of_Z (SHA256.digest (opad key ++ inner)).

End HMAC.

(** ** strings *)

Module GoStrings.

Definition isUpper (c : ascii) : bool :=
  (65 <=? ascii_to_Z c) && (ascii_to_Z c <=? 90).

(** [c += 'a' - 'A'] on an upper-case letter. *)
Definition lowerByte (c : ascii) : ascii :=
  if isUpper c then ascii_of_Z (ascii_to_Z c + 32) else c.

Fixpoint isASCII (s : string) : bool :=
  match s with
  | "" => true
  | String c s' => (ascii_to_Z c <? 128) && isASCII s'
  end.

Fixpoint mapBytes (f : ascii -> ascii) (s : string) : string :=
  match s with
  | "" => ""
  | String c s' => String (f c) (mapBytes f s')
  end.

(** [strings.ToLower]: a string of bytes below [utf8.RuneSelf] (0x80) is
    lower-cased byte by byte; any other string goes through
    [Map(unicode.ToLower, s)], whose Unicode tables are the argument
    [unicodeToLower]. *)
Definition ToLower (unicodeToLower : string -> string) (s : string) : string :=
  if isASCII s then mapBytes lowerByte s else unicodeToLower s.

(** [strings.Join]. *)
Fixpoint Join (elems : list string) (sep : string) : string :=
  match elems with
  | [] => ""
  | [a] => a
  | a :: rest => a +:+ sep +:+ Join rest sep
  end.

End GoStrings.

(** ** sort *)

Module Sort.

(** [sort.Strings]: increasing order of Go's [<] on strings, which compares
    byte by byte. The sorted list is unique ([Strings_perm] below), so the
    sorting algorithm does not matter. *)
Definition Strings (x : list string) : list string := merge_sort String.le x.

End Sort.

(** ** fmt *)

Module Fmt.

(** [fmt.Sprintf] for formats whose only verb is [%s], with string
    operands: the operands replace the verbs in order. *)
Fixpoint Sprintf (format : string) (a : list string) : string :=
  match format with
  | "" => ""
  | String "%" (String "s" rest) =>
      match a with
      | v :: a' => v +:+ Sprintf rest a'
      | [] => "%!s(MISSING)" +:+ Sprintf rest []
      end
  | String c rest => String c (Sprintf rest a)
  end.

End Fmt.

(** ** net/url *)

Module URL.

Definition upperhex : string := "0123456789ABCDEF".

(** [shouldEscape(c, encodeQueryComponent)]: letters, digits and [-_.~]
    are kept, every other byte is escaped. *)
Definition shouldEscape (c : ascii) : bool :=
  let z := ascii_to_Z c in
  negb (((97 <=? z) && (z <=? 122)) || ((65 <=? z) && (z <=? 90))
        || ((48 <=? z) && (z <=? 57))
        || (z =? 45) || (z =? 95) || (z =? 46) || (z =? 126)).

(** [url.QueryEscape]: a space becomes [+], any other escaped byte becomes
    [%XX] with upper-case hexadecimal digits. *)
Fixpoint QueryEscape (s : string) : string :=
  match s with
  | "" => ""
  | String c s' =>
      if shouldEscape c then
        if ascii_to_Z c =? 32 then String "+" (QueryEscape s')
        else String "%" (String (Hex.digit upperhex (Z.shiftr (ascii_to_Z c) 4))
               (String (Hex.digit upperhex (Z.land (ascii_to_Z c) 15)) (QueryEscape s')))
      else String c (QueryEscape s')
  end.

(** [url.Values] is [map[string][]string]; [None] is the nil map. *)
Definition Values : Type := option (gmap string (list string)).

Definition len (v : Values) : nat :=
  match v with
  | None => 0
  | Some m => size m
  end.

Definition index (v : Values) (k : string) : list string :=
  match v with
  | None => []
  | Some m => default [] (m !! k)
  end.

(** The keys of the map in the order of stdpp's [map_to_list]: one of the
    orders a [range] may take. *)
Definition keys (v : Values) : list string :=
  match v with
  | None => []
  | Some m => (map_to_list m).*1
  end.

(** The body of [Values.Encode] after the keys were collected in the order
    [ks]: the keys are sorted, and every value of every key is written as
    [key=value], with [&] before each pair but the first one written. *)
Definition EncodeRange (ks : list string) (v : Values) : string :=
  if (len v =? 0)%nat then ""
  else
    fold_left (fun buf k =>
      let keyEscaped := QueryEscape k in
      fold_left (fun buf val =>
        (if (String.length buf =? 0)%nat then buf else buf +:+ "&")
          +:+ keyEscaped +:+ "=" +:+ QueryEscape val)
        (index v k) buf)
      (Sort.Strings ks) "".

(** [Values.Encode]. *)
Definition Encode (v : Values) : string := EncodeRange (keys v) v.

(** [Values.Set]: the key gets the single value [val]. *)
Definition Values_Set (k val : string) (v : gmap string (list string)) :
  gmap string (list string) := <[k := [val]]> v.

End URL.

(** ** hertz: protocol.Request, protocol.Response, client.Client

    Only what [Send] touches. A request is the record of what was set on it;
    header names are kept as given. *)

Definition error : Type := string.

Record Request := {
  RequestMethod : string;
  RequestURI : string;
  RequestHeader : gmap string string;
  RequestBody : option (list byte)
}.

Record Response := {
  StatusCode : Z;
  ResponseBody : list byte
}.

(** [new(protocol.Request)]. *)
Definition newRequest : Request :=
  {| RequestMethod := ""; RequestURI := ""; RequestHeader := ∅; RequestBody := None |}.

Definition Request_SetMethod (method : string) (req : Request) : Request :=
  {| RequestMethod := method; RequestURI := RequestURI req;
     RequestHeader := RequestHeader req; RequestBody := RequestBody req |}.

Definition Request_SetRequestURI (u : string) (req : Request) : Request :=
  {| RequestMethod := RequestMethod req; RequestURI := u;
     RequestHeader := RequestHeader req; RequestBody := RequestBody req |}.

Definition Request_SetHeader (k v : string) (req : Request) : Request :=
  {| RequestMethod := RequestMethod req; RequestURI := RequestURI req;
     RequestHeader := <[k := v]> (RequestHeader req); RequestBody := RequestBody req |}.

(** [SetHeaders] sets every pair of the map. *)
Definition Request_SetHeaders (h : gmap string string) (req : Request) : Request :=
  {| RequestMethod := RequestMethod req; RequestURI := RequestURI req;
     RequestHeader := h ∪ RequestHeader req; RequestBody := RequestBody req |}.

(** The embedded [*client.Client]: its method [Do] performs the call and
    yields the response and the transport error, if any. *)
Record HertzClient := {
  Do : Request -> Response * option error
}.

(** ** client *)

Record Option := {
  Url : string;
  Key : string;
  Secret : string
}.

Record Client := {
  Client_Client : HertzClient;
  Client_Option : Option
}.

(** [OpenAPI]. The field [Client] is the client [R] was called on. *)
Record OpenAPI := {
  OpenAPI_Client : Client;
  Method : string;
  Path : string;
  Header : gmap string string;
  Query : URL.Values;
  Body : option (list byte)
}.

Definition LF : string := String "010" "".
Definition DQ : string := String "034" "".

(** [x.Header[k]]: a missing key reads as the empty string. *)
Definition Header_index (h : gmap string string) (k : string) : string :=
  default "" (h !! k).

(** The keys of the header map in the order of stdpp's [map_to_list]: one of
    the orders a [range] may take. *)
Definition Header_keys (h : gmap string string) : list string := (map_to_list h).*1.

(** [R]: [date] is [time.Now().UTC().Format(http.TimeFormat)]. *)
Definition R (x : Client) (date : string) (method path : string) : OpenAPI :=
  {| OpenAPI_Client := x; Method := method; Path := path;
     Header := <["accept" := "application/json"]>
                 (<["source" := "apigw test"]> (<["x-date" := date]> ∅));
     Query := None; Body := None |}.

Definition SetQuery (v : URL.Values) (x : OpenAPI) : OpenAPI :=
  {| OpenAPI_Client := OpenAPI_Client x; Method := Method x; Path := Path x;
     Header := Header x; Query := v; Body := Body x |}.

Section Signer.

(** The Unicode branch of [strings.ToLower]. *)
Variable unicodeToLower : string -> string.

(** Lines 105-112: the loop over [x.Header], visiting the keys in the
    order [ks]. *)
Definition collectHeaders (ks : list string) : list string :=
  fold_left (fun headers k =>
               if String.eqb k "Accept" then headers
               else headers ++ [GoStrings.ToLower unicodeToLower k])
            ks [].

(** Line 113: [headers] after [sort.Strings]. *)
Definition headers (ks : list string) : list string :=
  Sort.Strings (collectHeaders ks).

(** Lines 114-116. *)
Definition headersKVString (ks : list string) (x : OpenAPI) : string :=
  fold_left (fun b v => b +:+ Fmt.Sprintf ("%s: %s" +:+ LF) [v; Header_index (Header x) v])
            (headers ks) "".

(** Line 117. *)
Definition accept : string := "application/json".

(** Lines 118-123. *)
Definition contextMd5 (x : OpenAPI) : string :=
  match Body x with
  | Some body => Hex.EncodeToString (MD5.Sum body)
  | None => ""
  end.

(** Lines 124-127. *)
Definition pathAndParameters (x : OpenAPI) : string :=
  match Query x with
  | Some _ => Path x +:+ Fmt.Sprintf "?%s" [URL.Encode (Query x)]
  | None => Path x
  end.

(** Lines 128-130. *)
Definition signToString (ks : list string) (x : OpenAPI) : string :=
  Fmt.Sprintf ("%s%s" +:+ LF +:+ "%s" +:+ LF +:+ LF +:+ "%s" +:+ LF +:+ "%s")
    [headersKVString ks x; Method x; accept; contextMd5 x; pathAndParameters x].

(** Lines 131-133. *)
Definition signature (ks : list string) (x : OpenAPI) : string :=
  Base64.EncodeToString
    (HMAC.SumSHA256 (bytes_of_string (Secret (Client_Option (OpenAPI_Client x))))
                    (bytes_of_string (signToString ks x))).

Definition authorizationFormat : string :=
  "hmac id=" +:+ DQ +:+ "%s" +:+ DQ +:+ ", algorithm=" +:+ DQ +:+ "hmac-sha256" +:+ DQ
    +:+ ", headers=" +:+ DQ +:+ "%s" +:+ DQ +:+ ", signature=" +:+ DQ +:+ "%s" +:+ DQ.

(** [SetAuthorization] when the loop of line 107 visits the keys in the
    order [ks]. *)
Definition SetAuthorizationRange (ks : list string) (x : OpenAPI) : string :=
  Fmt.Sprintf authorizationFormat
    [Key (Client_Option (OpenAPI_Client x)); GoStrings.Join (headers ks) " "; signature ks x].

(** A call of [SetAuthorization] returns [s]: the loop takes some order of
    the keys of the map. *)
Definition SetAuthorization_returns (x : OpenAPI) (s : string) : Prop :=
  exists ks, ks ≡ₚ Header_keys (Header x) /\ s = SetAuthorizationRange ks x.

(** [SetAuthorization], computed with one order; by [SetAuthorization_range]
    below it is the result for every order. *)
Definition SetAuthorization (x : OpenAPI) : string :=
  SetAuthorizationRange (Header_keys (Header x)) x.

(** Lines 141-149 of [Send]: the request handed to the transport. *)
Definition Send_request (x : OpenAPI) : Request :=
  let c := Client_Option (OpenAPI_Client x) in
  let req := newRequest in
  let req := Request_SetMethod (Method x) req in
  let u := Fmt.Sprintf "%s%s?%s" [Url c; Path x; URL.Encode (Query x)] in
  let req := Request_SetRequestURI u req in
  let req := Request_SetHeaders (Header x) req in
  if negb (String.eqb (Key c) "") && negb (String.eqb (Secret c) "")
  then Request_SetHeader "Authorization" (SetAuthorization x) req
  else req.

(** [Send]: the response and the error of the transport. *)
Definition Send (x : OpenAPI) : Response * option error :=
  Do (Client_Client (OpenAPI_Client x)) (Send_request x).

(** Lines 161-162 of [Ping]: the call it sends. *)
Definition Ping_Send (x : Client) (date : string) : Response * option error :=
  Send (R x date "GET" "/").

End Signer.

Section SetData.

(** [sonic.Marshal] on the values of Go: the bytes (nil on failure) and
    the error. *)
Variable GoValue : Type.
Variable Marshal : GoValue -> option (list byte) * option error.

(** [x.Body, _ = sonic.Marshal(v)]. *)
Definition SetData (v : GoValue) (x : OpenAPI) : OpenAPI :=
  let '(body, _) := Marshal v in
  {| OpenAPI_Client := OpenAPI_Client x; Method := Method x; Path := Path x;
     Header := Header x; Query := Query x; Body := body |}.

End SetData.

(** ** The signer in the words of the specification

    These definitions follow the text of the specification, not the code;
    the theorems below compare them with the definitions above. *)

Definition concat_strings (l : list string) : string :=
  fold_right String.append "" l.

Section Specification.

Variable unicodeToLower : string -> string.

(** Steps 1 and 2: the names except [Accept], lower-cased, sorted. *)
Definition spec_header_names (h : gmap string string) : list string :=
  Sort.Strings
    (map (GoStrings.ToLower unicodeToLower)
         (filter (fun k => k <> "Accept") (Header_keys h))).

(** Step 3: the line of a name, its value read under the lower-cased name. *)
Definition spec_header_line (h : gmap string string) (name : string) : string :=
  name +:+ ": " +:+ Header_index h name +:+ LF.

Definition spec_canonical_header_block (h : gmap string string) : string :=
  concat_strings (map (spec_header_line h) (spec_header_names h)).

(** Step 6. *)
Definition spec_signing_string (block method contentMd5 pathAndParams : string) : string :=
  block +:+ method +:+ LF +:+ "application/json" +:+ LF +:+ LF
        +:+ contentMd5 +:+ LF +:+ pathAndParams.

(** Step 7. *)
Definition spec_signature (secret signingString : string) : string :=
  Base64.EncodeToString
    (HMAC.SumSHA256 (bytes_of_string secret) (bytes_of_string signingString)).

(** Step 8. *)
Definition spec_authorization (key : string) (names : list string) (sig : string) : string :=
  "hmac id=" +:+ DQ +:+ key +:+ DQ +:+ ", algorithm=" +:+ DQ +:+ "hmac-sha256" +:+ DQ
    +:+ ", headers=" +:+ DQ +:+ GoStrings.Join names " " +:+ DQ
    +:+ ", signature=" +:+ DQ +:+ sig +:+ DQ.

End Specification.

(** The query string: the pairs [key=value], both escaped, the keys in
    increasing order and the values of a key in their order, joined by [&]. *)
Definition spec_query_pairs (m : gmap string (list string)) : list string :=
  flat_map (fun k => map (fun v => URL.QueryEscape k +:+ "=" +:+ URL.QueryEscape v)
                         (default [] (m !! k)))
           (Sort.Strings (map_to_list m).*1).

Definition spec_query_string (m : gmap string (list string)) : string :=
  GoStrings.Join (spec_query_pairs m) "&".

(** ** Requests and values for the examples, and auxiliary definitions *)

(** Two requests agree on everything [SetAuthorization] reads: the identity
    of the client, the method, the path, the query, the headers, the body. *)
Definition same_signed_input (x1 x2 : OpenAPI) : Prop :=
  Key (Client_Option (OpenAPI_Client x1)) = Key (Client_Option (OpenAPI_Client x2))
  /\ Secret (Client_Option (OpenAPI_Client x1)) = Secret (Client_Option (OpenAPI_Client x2))
  /\ Method x1 = Method x2 /\ Path x1 = Path x2 /\ Query x1 = Query x2
  /\ Header x1 = Header x2 /\ Body x1 = Body x2.

(** The inner loop body of [Values.Encode] on the pair [p], already written
    as [key=value]. *)
Definition writePair (buf p : string) : string :=
  (if (String.length buf =? 0)%nat then buf else buf +:+ "&") +:+ p.

(** A transport that answers every request with an empty 200. *)
Definition exampleTransport : HertzClient :=
  {| Do := fun _ => ({| StatusCode := 200; ResponseBody := [] |}, None) |}.

Definition exampleClient : Client :=
  {| Client_Client := exampleTransport;
     Client_Option := {| Url := "https://api.example.com"; Key := "id"; Secret := "secret" |} |}.

Definition exampleDate : string := "Sun, 01 Nov 2026 08:00:00 GMT".

(** The field assignment [x.Body = b]. *)
Definition withBody (b : option (list byte)) (x : OpenAPI) : OpenAPI :=
  {| OpenAPI_Client := OpenAPI_Client x; Method := Method x; Path := Path x;
     Header := Header x; Query := Query x; Body := b |}.

(** The request of [Ping]. *)
Definition pingRequest : OpenAPI := R exampleClient exampleDate "GET" "/".

(** [x.R("GET", "/ip").SetQuery(make(url.Values))]: a query that is not nil
    and has no parameter. *)
Definition emptyQueryRequest : OpenAPI :=
  SetQuery (Some ∅) (R exampleClient exampleDate "GET" "/ip").

(** A query with the parameters [b=2] and [a=1]. *)
Definition twoParamsRequest : OpenAPI :=
  SetQuery (Some (URL.Values_Set "b" "2" (URL.Values_Set "a" "1" ∅)))
           (R exampleClient exampleDate "GET" "/ip").

(** A body that is not nil and has no byte: [x.Body = []byte{}]. *)
Definition emptyBodyRequest : OpenAPI :=
  withBody (Some []) (R exampleClient exampleDate "POST" "/ip").

(** The digits [0-9] and [a-f]. *)
Definition isLowerHex (c : ascii) : bool :=
  let z := ascii_to_Z c in
  ((48 <=? z) && (z <=? 57)) || ((97 <=? z) && (z <=? 102)).

Fixpoint allChars (p : ascii -> bool) (s : string) : bool :=
  match s with
  | "" => true
  | String c s' => p c && allChars p s'
  end.

(** The request of [Send] before the test of line 147. *)
Definition unsignedRequest (x : OpenAPI) : Request :=
  {| RequestMethod := Method x;
     RequestURI := Url (Client_Option (OpenAPI_Client x)) +:+ Path x +:+ "?"
                     +:+ URL.Encode (Query x);
     RequestHeader := Header x;
     RequestBody := None |}.

(** What follows the first occurrence of [base] at the start of [uri]. *)
Fixpoint afterPrefix (base uri : string) : option string :=
  match base, uri with
  | "", _ => Some uri
  | String a base', String b uri' =>
      if Ascii.eqb a b then afterPrefix base' uri' else None
  | String _ _, "" => None
  end.

(** Two values for the examples: an object that marshals to the bytes of
    [{"a":1}] and a channel, which has no JSON form. *)
Inductive exampleValue : Type :=
  | ExampleObject
  | ExampleChannel.

Definition exampleMarshal (v : exampleValue) : option (list byte) * option error :=
  match v with
  | ExampleObject => (Some (bytes_of_string ("{" +:+ DQ +:+ "a" +:+ DQ +:+ ":1}")), None)
  | ExampleChannel => (None, Some "json: unsupported type: chan int")
  end.

(** A client without a secret: [Send] leaves the request unsigned, and
    [SetAuthorization] still has a value. *)
Definition noSecretClient : Client :=
  {| Client_Client := exampleTransport;
     Client_Option := {| Url := "https://api.example.com"; Key := "id"; Secret := "" |} |}.

Definition noSecretRequest : OpenAPI :=
  SetQuery (Some (URL.Values_Set "value" "8.8.8.8" ∅))
           (R noSecretClient exampleDate "GET" "/ip").

(** The keys of the three default headers in another order. *)
Definition otherRange : list string := ["x-date"; "accept"; "source"].

(** A request whose header names are not all lower-case, with a query of
    several values and a body. *)
Definition mixedCaseRequest : OpenAPI :=
  {| OpenAPI_Client := exampleClient; Method := "POST"; Path := "/geo/x";
     Header := <["Accept" := "q"]> (<["Host" := "a"]> (<["host" := "b"]>
                 (<["X-Date" := exampleDate]> ∅)));
     Query := Some (<["b" := ["2"; "3 4"]]> (<["a" := ["1&"]]> ∅));
     Body := Some (bytes_of_string ("{" +:+ DQ +:+ "a" +:+ DQ +:+ ":1}")) |}.

(** ** The rest of the client: SetApiGateway, New, SetHeaders, the endpoints *)

(** [OptionFunc]: a function that updates the client under construction. *)
Definition OptionFunc : Type := Client -> Client.

(** [SetApiGateway]: [x.Key = key; x.Secret = secret]. *)
Definition SetApiGateway (key secret : string) : OptionFunc :=
  fun x =>
    {| Client_Client := Client_Client x;
       Client_Option := {| Url := Url (Client_Option x); Key := key; Secret := secret |} |}.

(** [New]: [newClient] is the result of [client.NewClient]. When it is an
    error, [New] returns that error (together with a client that has no
    option, which the sum leaves out); otherwise the options are applied in
    order to the client with [Option{Url: url}]. *)
Definition New (newClient : HertzClient + error) (url : string) (options : list OptionFunc) :
  Client + error :=
  match newClient with
  | inr err => inr err
  | inl hc =>
      inl (fold_left (fun x v => v x) options
             {| Client_Client := hc;
                Client_Option := {| Url := url; Key := ""; Secret := "" |} |})
  end.

(** The assignment [x.Header[k] = v]. *)
Definition Header_set (k v : string) (x : OpenAPI) : OpenAPI :=
  {| OpenAPI_Client := OpenAPI_Client x; Method := Method x; Path := Path x;
     Header := <[k := v]> (Header x); Query := Query x; Body := Body x |}.

(** [SetHeaders] when the loop of line 88 visits the pairs of [v] in the
    order [kvs]. *)
Definition SetHeadersRange (kvs : list (string * string)) (x : OpenAPI) : OpenAPI :=
  fold_left (fun x kv => Header_set kv.1 kv.2 x) kvs x.

(** [SetHeaders], computed with one order; by [SetHeadersRange_union] below
    it is the result for every order. *)
Definition SetHeaders (v : gmap string string) (x : OpenAPI) : OpenAPI :=
  SetHeadersRange (map_to_list v) x.

Section Endpoints.

Variable unicodeToLower : string -> string.

(** The values of [interface{}] and the types of the package [model]. *)
Variable GoValue Country State City : Type.

(** [sonic.Unmarshal(buf, &v)]: from the bytes and the value [v] points to,
    the value it points to afterwards and the error. *)
Variable Unmarshal : forall T : Type, list byte -> T -> T * option error.

(** [M = map[string]interface{}]; [None] is the nil map, [Some ∅] is
    [make(M)]. *)
Definition M : Type := option (gmap string GoValue).

(** [Ping]. *)
Definition Ping (x : Client) (date : string) : M * option error :=
  let '(resp, err) := Ping_Send unicodeToLower x date in
  match err with
  | Some e => (None, Some e)
  | None => Unmarshal M (ResponseBody resp) (Some ∅)
  end.

(** Lines 174-178 of [GetIp]: the request it builds. *)
Definition GetIp_request (x : Client) (date ip : string) : OpenAPI :=
  let query := URL.Values_Set "value" ip ∅ in
  SetQuery (Some query) (R x date "GET" "/ip").

(** [GetIp]. *)
Definition GetIp (x : Client) (date ip : string) : M * option error :=
  let '(resp, err) := Send unicodeToLower (GetIp_request x date ip) in
  match err with
  | Some e => (None, Some e)
  | None => Unmarshal M (ResponseBody resp) (Some ∅)
  end.

(** Lines 190-194 of [GetCountries]. *)
Definition GetCountries_request (x : Client) (date : string) (fields : list string) : OpenAPI :=
  let query := URL.Values_Set "fields" (GoStrings.Join fields ",") ∅ in
  SetQuery (Some query) (R x date "GET" "/geo/countries").

(** [GetCountries]; the result is a slice: [None] is nil, [Some []] is
    [make([]model.Country, 0)]. *)
Definition GetCountries (x : Client) (date : string) (fields : list string) :
  option (list Country) * option error :=
  let '(resp, err) := Send unicodeToLower (GetCountries_request x date fields) in
  match err with
  | Some e => (None, Some e)
  | None => Unmarshal (option (list Country)) (ResponseBody resp) (Some [])
  end.

(** Lines 206-211 of [GetStates]. *)
Definition GetStates_request (x : Client) (date country : string) (fields : list string) :
  OpenAPI :=
  let query := URL.Values_Set "country" country ∅ in
  let query := URL.Values_Set "fields" (GoStrings.Join fields ",") query in
  SetQuery (Some query) (R x date "GET" "/geo/states").

(** [GetStates]. *)
Definition GetStates (x : Client) (date country : string) (fields : list string) :
  option (list State) * option error :=
  let '(resp, err) := Send unicodeToLower (GetStates_request x date country fields) in
  match err with
  | Some e => (None, Some e)
  | None => Unmarshal (option (list State)) (ResponseBody resp) (Some [])
  end.

(** Lines 223-229 of [GetCities]. *)
Definition GetCities_request (x : Client) (date country state : string)
    (fields : list string) : OpenAPI :=
  let query := URL.Values_Set "country" country ∅ in
  let query := URL.Values_Set "state" state query in
  let query := URL.Values_Set "fields" (GoStrings.Join fields ",") query in
  SetQuery (Some query) (R x date "GET" "/geo/cities").

(** [GetCities]. *)
Definition GetCities (x : Client) (date country state : string) (fields : list string) :
  option (list City) * option error :=
  let '(resp, err) := Send unicodeToLower (GetCities_request x date country state fields) in
  match err with
  | Some e => (None, Some e)
  | None => Unmarshal (option (list City)) (ResponseBody resp) (Some [])
  end.

End Endpoints.

(** Every byte is below 0x80 and none is an upper-case letter. *)
Fixpoint isLowerASCII (s : string) : bool :=
  match s with
  | "" => true
  | String c s' => (ascii_to_Z c <? 128) && negb (GoStrings.isUpper c) && isLowerASCII s'
  end.

(** The characters of the standard base64 alphabet and the padding. *)
Definition isBase64Char (c : ascii) : bool :=
  let z := ascii_to_Z c in
  ((65 <=? z) && (z <=? 90)) || ((97 <=? z) && (z <=? 122))
  || ((48 <=? z) && (z <=? 57)) || (z =? 43) || (z =? 47) || (z =? 61).

(** The client whose transport answers as that of [x] does, with every
    status code [z] replaced by [f z]. *)
Definition mapStatus (f : Z -> Z) (x : Client) : Client :=
  {| Client_Client :=
       {| Do := fun req =>
                  let '(resp, err) := Do (Client_Client x) req in
                  ({| StatusCode := f (StatusCode resp);
                      ResponseBody := ResponseBody resp |}, err) |};
     Client_Option := Client_Option x |}.

(** A transport that fails on every request. *)
Definition failingTransport : HertzClient :=
  {| Do := fun _ => ({| StatusCode := 0; ResponseBody := [] |},
                     Some "dial tcp: connection refused") |}.

Definition failingClient : Client :=
  {| Client_Client := failingTransport; Client_Option := Client_Option exampleClient |}.

(** An [Unmarshal] for the examples: it leaves the value as it is. *)
Definition exampleUnmarshal : forall T : Type, list byte -> T -> T * option error :=
  fun T _ v => (v, None).

(** Two headers to merge into a request. *)
Definition exampleHeaders : gmap string string :=
  <["accept" := "text/plain"]> (<["host" := "example.com"]> ∅).

(** ** Test vectors of the library functions *)

Example md5_empty :
  Hex.EncodeToString (MD5.Sum []) = "d41d8cd98f00b204e9800998ecf8427e".
Proof. vm_compute. reflexivity. Qed.

Example md5_abc :
  Hex.EncodeToString (MD5.Sum (bytes_of_string "abc"))
  = "900150983cd24fb0d6963f7d28e17f72".
Proof. vm_compute. reflexivity. Qed.

Example md5_two_blocks :
  Hex.EncodeToString (MD5.Sum (bytes_of_string
    "12345678901234567890123456789012345678901234567890123456789012345678901234567890"))
  = "57edf4a22be3c955ac49da2e2107b67a".
Proof. vm_compute. reflexivity. Qed.

Example sha256_constants :
  firstn 4 SHA256._K = [0x428a2f98; 0x71374491; 0xb5c0fbcf; 0xe9b5dba5]
  /\ skipn 62 SHA256._K = [0xbef9a3f7; 0xc67178f2]
  /\ firstn 2 SHA256.init = [0x6a09e667; 0xbb67ae85]
  /\ length SHA256._K = 64%nat /\ length SHA256.init = 8%nat.
Proof. vm_compute. repeat split; reflexivity. Qed.

Example sha256_abc :
  Hex.EncodeToString (SHA256.Sum256 (bytes_of_string "abc"))
  = "ba7816bf8f01cfea414140de5dae2223b00361a396177a9cb410ff61f20015ad".
Proof. vm_compute. reflexivity. Qed.

Example sha256_empty :
  Hex.EncodeToString (SHA256.Sum256 [])
  = "e3b0c44298fc1c149afbf4c8996fb92427ae41e4649b934ca495991b7852b855".
Proof. vm_compute. reflexivity. Qed.

Example sha256_two_blocks :
  Hex.EncodeToString (SHA256.Sum256 (bytes_of_string
    "aaaaaaaaaaaaaaaaaaaaaaaaaaaaaaaaaaaaaaaaaaaaaaaaaaaaaaaaaaaaaaaaaaaaaa"))
  = "6bd5e5034855a11241f0dee8fc72850ffd9955b28347a86428b5fa19119f6ad0".
Proof. vm_compute. reflexivity. Qed.

Example hmac_rfc4231_case2 :
  Hex.EncodeToString
    (HMAC.SumSHA256 (bytes_of_string "Jefe")
                    (bytes_of_string "what do ya want for nothing?"))
  = "5bdcc146bf60754e6a042426089575c75a003f089d2739839dec58b964ec3843".
Proof. vm_compute. reflexivity. Qed.

Example hmac_long_key :
  Hex.EncodeToString
    (HMAC.SumSHA256 (bytes_of_string
       "kkkkkkkkkkkkkkkkkkkkkkkkkkkkkkkkkkkkkkkkkkkkkkkkkkkkkkkkkkkkkkkkkkkkkk")
       (bytes_of_string "msg"))
  = "869b65e96f6aff0cfcb55ed40163b7d46e124a4213fa2232d61cca5e4a21256e".
Proof. vm_compute. reflexivity. Qed.

Example hmac_empty_key_base64 :
  Base64.EncodeToString (HMAC.SumSHA256 [] [])
  = "thNnmggU2ex3L5XXeMNfxf8Wl8STcVZTxscSFEKSxa0=".
Proof. vm_compute. reflexivity. Qed.

Example QueryEscape_reserved :
  URL.QueryEscape "a b&c=d/e~f" = "a+b%26c%3Dd%2Fe~f".
Proof. vm_compute. reflexivity. Qed.

Example Encode_sorts_keys :
  URL.Encode (Some (URL.Values_Set "b" "2" (URL.Values_Set "a" "1" ∅))) = "a=1&b=2".
Proof. vm_compute. reflexivity. Qed.

Example Encode_nil_and_empty :
  URL.Encode None = "" /\ URL.Encode (Some ∅) = "".
Proof. vm_compute. split; reflexivity. Qed.

Example Sprintf_line :
  forall v w, Fmt.Sprintf "%s: %s;" [v; w] = v +:+ ": " +:+ w +:+ ";".
Proof. reflexivity. Qed.

Example ToLower_ascii :
  forall u, GoStrings.ToLower u "X-Date" = "x-date".
Proof. reflexivity. Qed.

Example Strings_sorted :
  Sort.Strings ["x-date"; "source"; "accept"; "Zeta"] = ["Zeta"; "accept"; "source"; "x-date"].
Proof. vm_compute. reflexivity. Qed.

(** ** Strings and sorting *)

Lemma append_assoc (a b c : string) : (a +:+ b) +:+ c = a +:+ (b +:+ c).
Proof. induction a as [|ch a IH]; simpl; [reflexivity | now rewrite IH]. Qed.

Lemma append_nil_r (a : string) : a +:+ "" = a.
Proof. induction a as [|ch a IH]; simpl; [reflexivity | now rewrite IH]. Qed.

Lemma append_length (a b : string) :
  String.length (a +:+ b) = (String.length a + String.length b)%nat.
Proof. induction a as [|ch a IH]; simpl; [reflexivity | now rewrite IH]. Qed.

Lemma fold_left_append {A} (f : A -> string) (l : list A) (acc : string) :
  fold_left (fun b v => b +:+ f v) l acc = acc +:+ concat_strings (map f l).
Proof.
  revert acc. induction l as [|v l IH]; intros acc; simpl.
  - now rewrite append_nil_r.
  - rewrite IH. apply append_assoc.
Qed.

(** The two formats of [SetAuthorization] that end in a verb. *)
Lemma Sprintf_signToString (a b c d e : string) :
  Fmt.Sprintf ("%s%s" +:+ LF +:+ "%s" +:+ LF +:+ LF +:+ "%s" +:+ LF +:+ "%s") [a; b; c; d; e]
  = a +:+ b +:+ LF +:+ c +:+ LF +:+ LF +:+ d +:+ LF +:+ e.
Proof.
  change (a +:+ b +:+ LF +:+ c +:+ LF +:+ LF +:+ d +:+ LF +:+ (e +:+ "")
          = a +:+ b +:+ LF +:+ c +:+ LF +:+ LF +:+ d +:+ LF +:+ e).
  now rewrite append_nil_r.
Qed.

Lemma Sprintf_query (q : string) : Fmt.Sprintf "?%s" [q] = "?" +:+ q.
Proof. change ("?" +:+ (q +:+ "") = "?" +:+ q). now rewrite append_nil_r. Qed.

Lemma Sprintf_uri (a b c : string) :
  Fmt.Sprintf "%s%s?%s" [a; b; c] = a +:+ b +:+ "?" +:+ c.
Proof. change (a +:+ b +:+ "?" +:+ (c +:+ "") = a +:+ b +:+ "?" +:+ c). now rewrite append_nil_r. Qed.

(** The sorted list depends on the elements only, not on their order. *)
Lemma Strings_perm (l1 l2 : list string) :
  l1 ≡ₚ l2 -> Sort.Strings l1 = Sort.Strings l2.
Proof.
  intros Hp. unfold Sort.Strings.
  apply (Sorted_unique String.le).
  - apply Sorted_merge_sort; apply _.
  - apply Sorted_merge_sort; apply _.
  - now rewrite !merge_sort_Permutation.
Qed.

Lemma Strings_sorted_le (l : list string) : Sorted String.le (Sort.Strings l).
Proof. apply Sorted_merge_sort; apply _. Qed.

Lemma Strings_Permutation (l : list string) : Sort.Strings l ≡ₚ l.
Proof. apply merge_sort_Permutation. Qed.

(** ** The loop over the header map *)

Section SignerFacts.

Variable unicodeToLower : string -> string.

Abbreviation lower := (GoStrings.ToLower unicodeToLower).

Lemma collectHeaders_acc (ks acc : list string) :
  fold_left (fun headers k =>
               if String.eqb k "Accept" then headers else headers ++ [lower k]) ks acc
  = acc ++ map lower (filter (fun k => k <> "Accept") ks).
Proof.
  revert acc. induction ks as [|k ks IH]; intros acc; simpl.
  - now rewrite app_nil_r.
  - rewrite IH. destruct (String.eqb_spec k "Accept") as [->|Hne].
    + rewrite filter_cons_False; [reflexivity | intros H; now apply H].
    + rewrite filter_cons_True by assumption. simpl.
      now rewrite <- app_assoc.
Qed.

Lemma collectHeaders_filter_map (ks : list string) :
  collectHeaders unicodeToLower ks
  = map lower (filter (fun k => k <> "Accept") ks).
Proof. unfold collectHeaders. now rewrite collectHeaders_acc. Qed.

(** The order in which the loop visits the keys does not show in [headers]. *)
Lemma headers_range (ks1 ks2 : list string) :
  ks1 ≡ₚ ks2 -> headers unicodeToLower ks1 = headers unicodeToLower ks2.
Proof.
  intros Hp. unfold headers. apply Strings_perm.
  rewrite !collectHeaders_filter_map. apply Permutation_map.
  now rewrite Hp.
Qed.

Lemma headers_spec (ks : list string) (h : gmap string string) :
  ks ≡ₚ Header_keys h -> headers unicodeToLower ks = spec_header_names unicodeToLower h.
Proof.
  intros Hp. rewrite (headers_range _ _ Hp).
  unfold headers, spec_header_names. now rewrite collectHeaders_filter_map.
Qed.

Lemma headersKVString_lines (ks : list string) (x : OpenAPI) :
  headersKVString unicodeToLower ks x
  = concat_strings (map (spec_header_line (Header x)) (headers unicodeToLower ks)).
Proof.
  unfold headersKVString.
  rewrite (fold_left_append
             (fun v => Fmt.Sprintf ("%s: %s" +:+ LF) [v; Header_index (Header x) v])).
  reflexivity.
Qed.

Lemma signToString_range (ks1 ks2 : list string) (x : OpenAPI) :
  ks1 ≡ₚ ks2 -> signToString unicodeToLower ks1 x = signToString unicodeToLower ks2 x.
Proof.
  intros Hp. unfold signToString. rewrite !headersKVString_lines.
  now rewrite (headers_range _ _ Hp).
Qed.

(** The result of [SetAuthorization] is the same for every order in which
    the loop of line 107 may visit the keys. *)
Lemma SetAuthorization_range (ks1 ks2 : list string) (x : OpenAPI) :
  ks1 ≡ₚ ks2 ->
  SetAuthorizationRange unicodeToLower ks1 x = SetAuthorizationRange unicodeToLower ks2 x.
Proof.
  intros Hp. unfold SetAuthorizationRange, signature.
  now rewrite (headers_range _ _ Hp), (signToString_range _ _ x Hp).
Qed.

Lemma signToString_spec (ks : list string) (x : OpenAPI) :
  ks ≡ₚ Header_keys (Header x) ->
  signToString unicodeToLower ks x
  = spec_signing_string (spec_canonical_header_block unicodeToLower (Header x))
      (Method x) (contextMd5 x) (pathAndParameters x).
Proof.
  intros Hp. unfold signToString.
  rewrite Sprintf_signToString, headersKVString_lines, (headers_spec _ _ Hp).
  reflexivity.
Qed.

(** The value of [SetAuthorization] in the words of the specification, for
    every order of the loop. *)
Lemma SetAuthorizationRange_spec (ks : list string) (x : OpenAPI) :
  ks ≡ₚ Header_keys (Header x) ->
  SetAuthorizationRange unicodeToLower ks x
  = spec_authorization
      (Key (Client_Option (OpenAPI_Client x)))
      (spec_header_names unicodeToLower (Header x))
      (spec_signature
         (Secret (Client_Option (OpenAPI_Client x)))
         (spec_signing_string (spec_canonical_header_block unicodeToLower (Header x))
            (Method x) (contextMd5 x) (pathAndParameters x))).
Proof.
  intros Hp. unfold SetAuthorizationRange, signature.
  rewrite (signToString_spec _ _ Hp), (headers_spec _ _ Hp).
  reflexivity.
Qed.

(** C1: every value a call of SetAuthorization returns is the string
    hmac id=<key>, algorithm=hmac-sha256, headers=<the sorted lower-cased
    names joined by spaces>, signature=<sig> (each value in double quotes),
    where sig is the base64 encoding of the HMAC-SHA256, keyed by the
    secret, of the signing string: the canonical header block, the method as
    given, a line feed, the constant application/json, two line feeds, the
    body digest of lines 118-123, a line feed, the path and parameters of
    lines 124-127. *)
Theorem SetAuthorization_value (x : OpenAPI) (s : string) :
  SetAuthorization_returns unicodeToLower x s ->
  s = spec_authorization
        (Key (Client_Option (OpenAPI_Client x)))
        (spec_header_names unicodeToLower (Header x))
        (spec_signature
           (Secret (Client_Option (OpenAPI_Client x)))
           (spec_canonical_header_block unicodeToLower (Header x)
              +:+ Method x +:+ LF +:+ "application/json" +:+ LF +:+ LF
              +:+ contextMd5 x +:+ LF +:+ pathAndParameters x)).
Proof.
  intros (ks & Hp & ->). now rewrite (SetAuthorizationRange_spec _ _ Hp).
Qed.

(** C2: the canonical header block of the signing string is built from the
    header map by dropping the name equal to Accept, lower-casing the other
    names, sorting them, and writing for each sorted name the line
    <name>: <value> and a line feed, the value being the one the map holds
    under the lower-cased name (the empty string when it holds none). *)
Theorem canonical_header_block_as_specified (ks : list string) (x : OpenAPI) :
  ks ≡ₚ Header_keys (Header x) ->
  headersKVString unicodeToLower ks x
  = spec_canonical_header_block unicodeToLower (Header x)
  /\ signToString unicodeToLower ks x
     = headersKVString unicodeToLower ks x
         +:+ Method x +:+ LF +:+ accept +:+ LF +:+ LF
         +:+ contextMd5 x +:+ LF +:+ pathAndParameters x.
Proof.
  intros Hp. split.
  - rewrite headersKVString_lines, (headers_spec _ _ Hp). reflexivity.
  - apply Sprintf_signToString.
Qed.

(** C8: two calls of SetAuthorization on requests with the same client
    identity, method, path, query, headers and body return the same value,
    whatever order the loops over the header map take; and every request has
    a value, also with an empty secret. *)
Theorem SetAuthorization_deterministic_total :
  (forall x : OpenAPI, exists s, SetAuthorization_returns unicodeToLower x s)
  /\ (forall (x1 x2 : OpenAPI) (s1 s2 : string),
        same_signed_input x1 x2 ->
        SetAuthorization_returns unicodeToLower x1 s1 ->
        SetAuthorization_returns unicodeToLower x2 s2 ->
        s1 = s2).
Proof.
  split.
  - intros x. exists (SetAuthorization unicodeToLower x), (Header_keys (Header x)).
    split; reflexivity.
  - intros x1 x2 s1 s2 (Hk & Hs & Hm & Hpa & Hq & Hh & Hb)
      (ks1 & Hp1 & ->) (ks2 & Hp2 & ->).
    rewrite (SetAuthorizationRange_spec _ _ Hp1), (SetAuthorizationRange_spec _ _ Hp2).
    unfold contextMd5, pathAndParameters.
    now rewrite Hk, Hs, Hm, Hpa, Hq, Hh, Hb.
Qed.

(** C10: in every value SetAuthorization returns, the names of the headers
    field, joined by single spaces, are one sorted list of lower-cased names,
    and the header block that was signed has exactly one line for each name
    of that same list, in the same order. *)
Theorem advertised_headers_are_the_signed_lines (x : OpenAPI) (s : string) :
  SetAuthorization_returns unicodeToLower x s ->
  exists names : list string,
    Sorted String.le names
    /\ names ≡ₚ map lower (filter (fun k => k <> "Accept") (Header_keys (Header x)))
    /\ s = spec_authorization (Key (Client_Option (OpenAPI_Client x))) names
             (spec_signature (Secret (Client_Option (OpenAPI_Client x)))
                (spec_signing_string
                   (concat_strings (map (spec_header_line (Header x)) names))
                   (Method x) (contextMd5 x) (pathAndParameters x))).
Proof.
  intros (ks & Hp & ->). exists (headers unicodeToLower ks). split; [|split].
  - apply Strings_sorted_le.
  - unfold headers. rewrite Strings_Permutation, collectHeaders_filter_map.
    apply Permutation_map. now rewrite Hp.
  - unfold SetAuthorizationRange, signature, signToString.
    rewrite Sprintf_signToString, headersKVString_lines. reflexivity.
Qed.

End SignerFacts.

(** ** The query string *)

Lemma Join_cons (p : string) (l : list string) (sep : string) :
  GoStrings.Join (p :: l) sep = p +:+ concat_strings (map (fun q => sep +:+ q) l).
Proof.
  revert p. induction l as [|q l IH]; intros p.
  - simpl. now rewrite append_nil_r.
  - change (p +:+ sep +:+ GoStrings.Join (q :: l) sep
            = p +:+ (sep +:+ q) +:+ concat_strings (map (fun q => sep +:+ q) l)).
    now rewrite IH, append_assoc.
Qed.

Lemma length_zero_empty (s : string) : String.length s = 0%nat -> s = "".
Proof. destruct s; [reflexivity | discriminate]. Qed.

Lemma writePair_nonempty (l : list string) (buf : string) :
  buf <> "" ->
  fold_left writePair l buf = buf +:+ concat_strings (map (fun q => "&" +:+ q) l).
Proof.
  revert buf. induction l as [|p l IH]; intros buf Hne.
  - simpl. now rewrite append_nil_r.
  - cbn [fold_left map concat_strings fold_right]. unfold writePair at 2.
    destruct (Nat.eqb_spec (String.length buf) 0) as [H0|_].
    + now apply length_zero_empty in H0.
    + rewrite IH.
      * now rewrite !append_assoc.
      * destruct buf; [congruence | discriminate].
Qed.

(** Writing non-empty pairs into an empty buffer, with [&] before each pair
    when the buffer is not empty, joins them with [&]. *)
Lemma writePair_Join (l : list string) :
  Forall (fun p => p <> "") l ->
  fold_left writePair l "" = GoStrings.Join l "&".
Proof.
  destruct l as [|p l]; [reflexivity|].
  intros Hall. inversion Hall as [|? ? Hp _]; subst.
  cbn [fold_left]. change (writePair "" p) with p.
  now rewrite writePair_nonempty, Join_cons.
Qed.

Lemma fold_left_flat_map {A B C} (f : A -> C -> A) (g : B -> list C) (l : list B) (a : A) :
  fold_left (fun a k => fold_left f (g k) a) l a = fold_left f (flat_map g l) a.
Proof.
  revert a. induction l as [|k l IH]; intros a; simpl; [reflexivity|].
  now rewrite fold_left_app, IH.
Qed.

Lemma fold_left_map {A B C} (f : A -> C -> A) (g : B -> C) (l : list B) (a : A) :
  fold_left (fun a v => f a (g v)) l a = fold_left f (map g l) a.
Proof. revert a. induction l as [|v l IH]; intros a; simpl; [reflexivity | apply IH]. Qed.

Lemma fold_left_pointwise {A B} (f g : A -> B -> A) (l : list B) (a : A) :
  (forall a b, f a b = g a b) -> fold_left f l a = fold_left g l a.
Proof.
  intros Hfg. revert a. induction l as [|b l IH]; intros a; simpl; [reflexivity|].
  now rewrite Hfg, IH.
Qed.

Lemma spec_query_pairs_nonempty (m : gmap string (list string)) :
  Forall (fun p => p <> "") (spec_query_pairs m).
Proof.
  unfold spec_query_pairs. apply List.Forall_forall. intros p Hin.
  apply in_flat_map in Hin as (k & _ & Hin). apply in_map_iff in Hin as (v & <- & _).
  intros Heq. apply (f_equal String.length) in Heq.
  rewrite !append_length in Heq. simpl in Heq. lia.
Qed.

(** [Values.Encode] writes the sorted, escaped pairs joined by [&]; on a map
    without keys, nil or not, it gives the empty string. *)
Lemma Encode_spec (m : gmap string (list string)) :
  URL.Encode (Some m) = spec_query_string m.
Proof.
  unfold URL.Encode, URL.EncodeRange, spec_query_string. cbn [URL.len URL.keys URL.index].
  destruct (Nat.eqb_spec (size m) 0) as [H0|_].
  - apply map_size_empty_iff in H0. subst m. reflexivity.
  - rewrite <- writePair_Join by apply spec_query_pairs_nonempty.
    unfold spec_query_pairs.
    rewrite <- (fold_left_flat_map writePair). apply fold_left_pointwise. intros buf k.
    rewrite <- (fold_left_map writePair). reflexivity.
Qed.

Lemma Encode_nil : URL.Encode None = "".
Proof. reflexivity. Qed.

(** The order in which [Encode] collects the keys does not show. *)
Lemma EncodeRange_range (ks1 ks2 : list string) (v : URL.Values) :
  ks1 ≡ₚ ks2 -> URL.EncodeRange ks1 v = URL.EncodeRange ks2 v.
Proof. intros Hp. unfold URL.EncodeRange. now rewrite (Strings_perm _ _ Hp). Qed.

(** ** The path and parameters (lines 124-127) *)

(** C4, as amended: pathAndParameters is the path alone when the query field
    is nil; when the query field is not nil it is the path, a question mark
    and the encoded query, whose pairs key=value are escaped, ordered by key
    and joined by ampersands, also when the query holds no parameter (the
    result then ends in the question mark). The parameters b=2 and a=1 give
    a=1&b=2. *)
Theorem pathAndParameters_by_nil_query :
  (forall x : OpenAPI,
     pathAndParameters x
     = match Query x with
       | Some m => Path x +:+ "?" +:+ spec_query_string m
       | None => Path x
       end)
  /\ pathAndParameters twoParamsRequest = "/ip?a=1&b=2"
  /\ pathAndParameters emptyQueryRequest = "/ip?"
  /\ pathAndParameters pingRequest = "/".
Proof.
  split; [|repeat split; vm_compute; reflexivity].
  intros x. unfold pathAndParameters. destruct (Query x) as [m|]; [|reflexivity].
  now rewrite Sprintf_query, Encode_spec.
Qed.

(** C4 as stated fails: a query that is not nil and holds no parameter gives
    the path followed by a question mark, not the bare path. *)
Lemma pathAndParameters_empty_query_not_bare_path :
  URL.len (Query emptyQueryRequest) = 0%nat
  /\ pathAndParameters emptyQueryRequest = "/ip?"
  /\ pathAndParameters emptyQueryRequest <> Path emptyQueryRequest.
Proof. vm_compute. repeat split; discriminate. Qed.

(** ** The body digest (lines 118-123) *)

Lemma Hex_EncodeToString_length (b : list byte) :
  String.length (Hex.EncodeToString b) = (2 * length b)%nat.
Proof. induction b as [|c b IH]; simpl; [reflexivity | rewrite IH; lia]. Qed.

Lemma Hex_EncodeToString_lower (b : list byte) :
  allChars isLowerHex (Hex.EncodeToString b) = true.
Proof.
  induction b as [|c b IH]; [reflexivity|].
  cbn [Hex.EncodeToString allChars]. rewrite IH.
  destruct c; vm_compute; reflexivity.
Qed.

Lemma MD5_Sum_length (data : list byte) : length (MD5.Sum data) = 16%nat.
Proof.
  unfold MD5.Sum, MD5.digest. rewrite length_map.
  destruct (fold_left MD5.block _ MD5.init) as [[[a b] c] d]. reflexivity.
Qed.

(** C5, as amended: contextMd5 is the empty string when the body is nil;
    when the body is not nil it is the MD5 digest of the body bytes written
    as 32 lower-case hexadecimal digits, also when the body has no byte (the
    digest of the empty sequence is then written). *)
Theorem contextMd5_by_nil_body (x : OpenAPI) :
  contextMd5 x
  = match Body x with
    | Some body => Hex.EncodeToString (MD5.Sum body)
    | None => ""
    end
  /\ (Body x = None <-> contextMd5 x = "")
  /\ (Body x <> None -> String.length (contextMd5 x) = 32%nat)
  /\ allChars isLowerHex (contextMd5 x) = true.
Proof.
  unfold contextMd5. destruct (Body x) as [body|].
  - assert (Hlen : String.length (Hex.EncodeToString (MD5.Sum body)) = 32%nat)
      by now rewrite Hex_EncodeToString_length, MD5_Sum_length.
    repeat split; try discriminate; auto using Hex_EncodeToString_lower.
    intros Heq. rewrite Heq in Hlen. discriminate.
  - repeat split; congruence.
Qed.

(** C5 as stated fails: a body that is not nil and has no byte gets the MD5
    digest of the empty byte sequence, not the empty string. *)
Lemma contextMd5_empty_body_is_digest :
  Body emptyBodyRequest = Some []
  /\ contextMd5 emptyBodyRequest = "d41d8cd98f00b204e9800998ecf8427e"
  /\ contextMd5 emptyBodyRequest <> "".
Proof. vm_compute. repeat split; discriminate. Qed.

(** ** Send (lines 140-157) *)

Section SendFacts.

Variable unicodeToLower : string -> string.

Lemma Send_request_cases (x : OpenAPI) :
  let c := Client_Option (OpenAPI_Client x) in
  Send_request unicodeToLower x
  = if negb (String.eqb (Key c) "") && negb (String.eqb (Secret c) "")
    then Request_SetHeader "Authorization" (SetAuthorization unicodeToLower x)
           (unsignedRequest x)
    else unsignedRequest x.
Proof.
  cbv zeta. unfold Send_request. rewrite Sprintf_uri.
  assert (Hbase : Request_SetHeaders (Header x)
            (Request_SetRequestURI
               (Url (Client_Option (OpenAPI_Client x)) +:+ Path x +:+ "?"
                  +:+ URL.Encode (Query x))
               (Request_SetMethod (Method x) newRequest)) = unsignedRequest x).
  { unfold Request_SetHeaders, unsignedRequest. cbn. f_equal. apply (right_id_L ∅ (∪)). }
  cbv zeta. now rewrite Hbase.
Qed.

(** C6: Send puts the value of SetAuthorization, computed on the request as
    it is at that moment, under the name Authorization exactly when the key
    and the secret are both non-empty; when one of them is empty the request
    carries the headers of the descriptor and nothing else; in both cases
    the request is handed to the transport and its answer is returned. *)
Theorem Send_sets_Authorization_iff_key_and_secret (x : OpenAPI) :
  let c := Client_Option (OpenAPI_Client x) in
  (Key c <> "" /\ Secret c <> "" ->
     RequestHeader (Send_request unicodeToLower x)
     = <["Authorization" := SetAuthorization unicodeToLower x]> (Header x))
  /\ (Key c = "" \/ Secret c = "" ->
     RequestHeader (Send_request unicodeToLower x) = Header x)
  /\ (Header x !! "Authorization" = None ->
     (is_Some (RequestHeader (Send_request unicodeToLower x) !! "Authorization")
      <-> Key c <> "" /\ Secret c <> ""))
  /\ Send unicodeToLower x
     = Do (Client_Client (OpenAPI_Client x)) (Send_request unicodeToLower x).
Proof.
  cbv zeta. set (c := Client_Option (OpenAPI_Client x)).
  assert (Hcases := Send_request_cases x). cbv zeta in Hcases. fold c in Hcases.
  repeat match goal with |- _ /\ _ => split end; [| | |reflexivity].
  - intros [Hk Hs]. rewrite Hcases.
    apply String.eqb_neq in Hk, Hs. rewrite Hk, Hs. reflexivity.
  - intros [Hk|Hs]; rewrite Hcases.
    + rewrite Hk. reflexivity.
    + rewrite Hs, andb_false_r. reflexivity.
  - intros Hnone. rewrite Hcases.
    destruct (String.eqb_spec (Key c) "") as [Hk|Hk];
      destruct (String.eqb_spec (Secret c) "") as [Hs|Hs]; cbn [negb andb].
    4: { cbn [Request_SetHeader RequestHeader unsignedRequest].
         rewrite lookup_insert_eq. split; [intros _; split; assumption | intros _; eexists; reflexivity]. }
    all: cbn [RequestHeader unsignedRequest]; rewrite Hnone;
      (split; [intros [? ?]; discriminate | intros [? ?]; congruence]).
Qed.

(** The URI of the request and the string that is signed. *)
Lemma Send_request_URI (x : OpenAPI) :
  RequestURI (Send_request unicodeToLower x)
  = Url (Client_Option (OpenAPI_Client x)) +:+ Path x +:+ "?" +:+ URL.Encode (Query x).
Proof.
  rewrite Send_request_cases. cbv zeta.
  destruct (negb _ && negb _); reflexivity.
Qed.

(** [Send] never sets a body on the request. *)
Lemma Send_request_no_body (x : OpenAPI) :
  RequestBody (Send_request unicodeToLower x) = None.
Proof.
  rewrite Send_request_cases. cbv zeta.
  destruct (negb _ && negb _); reflexivity.
Qed.

(** With a query that is not nil the signed path and parameters are the part
    of the URI after the base URL. *)
Lemma Send_signs_URI_of_present_query (x : OpenAPI) (m : gmap string (list string)) :
  Query x = Some m ->
  RequestURI (Send_request unicodeToLower x)
  = Url (Client_Option (OpenAPI_Client x)) +:+ pathAndParameters x.
Proof.
  intros Hq. rewrite Send_request_URI. unfold pathAndParameters. rewrite Hq.
  now rewrite Sprintf_query.
Qed.

(** With a nil query the URI still ends in a question mark and the signed
    string does not. *)
Lemma Send_signs_other_than_URI_of_nil_query (x : OpenAPI) :
  Query x = None ->
  RequestURI (Send_request unicodeToLower x)
  = Url (Client_Option (OpenAPI_Client x)) +:+ Path x +:+ "?"
  /\ pathAndParameters x = Path x
  /\ pathAndParameters x <> Path x +:+ "?".
Proof.
  intros Hq. rewrite Send_request_URI. unfold pathAndParameters. rewrite Hq.
  repeat split.
  intros Heq. apply (f_equal String.length) in Heq. rewrite append_length in Heq.
  simpl in Heq. lia.
Qed.

(** A nil query and a query without parameters are sent under the same URI
    and signed differently: whatever the receiver reads off the URI, it
    cannot be the signed string in both cases. *)
Lemma Send_same_URI_two_signed_strings (x : OpenAPI) (f : string -> string) :
  let x1 := SetQuery None x in
  let x2 := SetQuery (Some ∅) x in
  RequestURI (Send_request unicodeToLower x1) = RequestURI (Send_request unicodeToLower x2)
  /\ ~ (f (RequestURI (Send_request unicodeToLower x1)) = pathAndParameters x1
        /\ f (RequestURI (Send_request unicodeToLower x2)) = pathAndParameters x2).
Proof.
  cbv zeta. rewrite !Send_request_URI. split; [reflexivity|].
  intros [H1 H2].
  assert (Heq : Path x = Path x +:+ "?") by exact (eq_trans (eq_sym H1) H2).
  apply (f_equal String.length) in Heq. rewrite append_length in Heq.
  simpl in Heq. lia.
Qed.

End SendFacts.

(** C3, evaluated on the request of Ping with a key and a secret: Send puts
    the Authorization value under its name, the URI it transmits is the base
    URL followed by /? and the signed path and parameters is / alone, so the
    part of the URI after the base URL is not what was signed. *)
Theorem Ping_signs_other_path_than_sent :
  Ping_Send id exampleClient exampleDate
  = Do exampleTransport (Send_request id pingRequest)
  /\ Query pingRequest = None
  /\ RequestHeader (Send_request id pingRequest) !! "Authorization"
     = Some (SetAuthorization id pingRequest)
  /\ RequestURI (Send_request id pingRequest) = "https://api.example.com/?"
  /\ afterPrefix (Url (Client_Option exampleClient))
       (RequestURI (Send_request id pingRequest)) = Some "/?"
  /\ pathAndParameters pingRequest = "/"
  /\ signToString id (Header_keys (Header pingRequest)) pingRequest
     = "accept: application/json" +:+ LF +:+ "source: apigw test" +:+ LF
         +:+ "x-date: " +:+ exampleDate +:+ LF
         +:+ "GET" +:+ LF +:+ "application/json" +:+ LF +:+ LF +:+ LF +:+ "/".
Proof. vm_compute. repeat split; reflexivity. Qed.

(** ** SetData (lines 99-102) *)

Section SetDataFacts.

Variable GoValue : Type.
Variable Marshal : GoValue -> option (list byte) * option error.

Lemma SetData_withBody (v : GoValue) (x : OpenAPI) :
  SetData GoValue Marshal v x = withBody (Marshal v).1 x.
Proof. unfold SetData. destruct (Marshal v) as [body err]. reflexivity. Qed.

(** C7: SetData stores the bytes that Marshal returns as the body and leaves
    the rest of the request as it was; the error of Marshal has no effect on
    the result; and when Marshal fails, returning nil bytes, the request is
    the request without a body: its body digest is the empty string and it
    is signed as the request without a body. *)
Theorem SetData_stores_bytes_and_drops_error (v : GoValue) (x : OpenAPI) :
  SetData GoValue Marshal v x = withBody (Marshal v).1 x
  /\ (forall Marshal' : GoValue -> option (list byte) * option error,
        (Marshal' v).1 = (Marshal v).1 ->
        SetData GoValue Marshal' v x = SetData GoValue Marshal v x)
  /\ (forall e : error,
        Marshal v = (None, Some e) ->
        SetData GoValue Marshal v x = withBody None x
        /\ contextMd5 (SetData GoValue Marshal v x) = ""
        /\ forall u, SetAuthorization u (SetData GoValue Marshal v x)
                     = SetAuthorization u (withBody None x)).
Proof.
  split; [apply SetData_withBody|]. split.
  - intros Marshal' Heq. unfold SetData.
    destruct (Marshal' v) as [b' e'], (Marshal v) as [b e]. simpl in Heq. now subst.
  - intros e He. rewrite SetData_withBody, He. repeat split.
Qed.

(** C9: when Marshal fails on the value, returning nil bytes, the body that
    an earlier SetData stored is replaced by nil. *)
Theorem SetData_failure_discards_earlier_body
    (v0 v : GoValue) (b : list byte) (e : error) (x : OpenAPI) :
  Marshal v0 = (Some b, None) ->
  Marshal v = (None, Some e) ->
  Body (SetData GoValue Marshal v0 x) = Some b
  /\ Body (SetData GoValue Marshal v (SetData GoValue Marshal v0 x)) = None.
Proof.
  intros H0 Hv. rewrite !SetData_withBody, H0, Hv. split; reflexivity.
Qed.

End SetDataFacts.

(** ** The theorems on concrete requests *)

Lemma SetData_stores_bytes_and_drops_error_witness :
  exampleMarshal ExampleChannel = (None, Some "json: unsupported type: chan int")
  /\ contextMd5 (SetData exampleValue exampleMarshal ExampleChannel
                  (SetData exampleValue exampleMarshal ExampleObject pingRequest)) = ""
  /\ contextMd5 (SetData exampleValue exampleMarshal ExampleObject pingRequest)
     = "bb6cb5c68df4652941caf652a366f2d8".
Proof.
  split; [reflexivity|]. split.
  - destruct (SetData_stores_bytes_and_drops_error exampleValue exampleMarshal
                ExampleChannel
                (SetData exampleValue exampleMarshal ExampleObject pingRequest))
      as (_ & _ & Hfail).
    destruct (Hfail "json: unsupported type: chan int" eq_refl) as (_ & Hmd5 & _).
    exact Hmd5.
  - vm_compute. reflexivity.
Defined.

Lemma SetData_failure_discards_earlier_body_witness :
  Body (SetData exampleValue exampleMarshal ExampleObject pingRequest)
  = Some (bytes_of_string ("{" +:+ DQ +:+ "a" +:+ DQ +:+ ":1}"))
  /\ Body (SetData exampleValue exampleMarshal ExampleChannel
             (SetData exampleValue exampleMarshal ExampleObject pingRequest)) = None.
Proof.
  apply (SetData_failure_discards_earlier_body exampleValue exampleMarshal
           ExampleObject ExampleChannel _ "json: unsupported type: chan int" pingRequest);
    reflexivity.
Defined.

Lemma otherRange_perm : otherRange ≡ₚ Header_keys (Header noSecretRequest).
Proof.
  assert (Hk : Header_keys (Header noSecretRequest) = ["source"; "accept"; "x-date"])
    by (vm_compute; reflexivity).
  rewrite Hk. unfold otherRange.
  apply (Permutation_cons_app ["source"; "accept"] [] "x-date"). apply perm_swap.
Qed.

Lemma SetAuthorization_value_witness :
  SetAuthorizationRange id otherRange noSecretRequest
  = spec_authorization "id" ["accept"; "source"; "x-date"]
      (spec_signature ""
         ("accept: application/json" +:+ LF +:+ "source: apigw test" +:+ LF
            +:+ "x-date: " +:+ exampleDate +:+ LF
            +:+ "GET" +:+ LF +:+ "application/json" +:+ LF +:+ LF +:+ "" +:+ LF
            +:+ "/ip?value=8.8.8.8")).
Proof.
  rewrite (SetAuthorization_value id noSecretRequest
             (SetAuthorizationRange id otherRange noSecretRequest)).
  - vm_compute. reflexivity.
  - exists otherRange. split; [exact otherRange_perm | reflexivity].
Defined.

Lemma canonical_header_block_as_specified_witness :
  headersKVString id otherRange noSecretRequest
  = "accept: application/json" +:+ LF +:+ "source: apigw test" +:+ LF
      +:+ "x-date: " +:+ exampleDate +:+ LF.
Proof.
  destruct (canonical_header_block_as_specified id otherRange noSecretRequest
              otherRange_perm) as [-> _].
  vm_compute. reflexivity.
Defined.

Lemma SetAuthorization_deterministic_total_witness :
  SetAuthorizationRange id otherRange noSecretRequest = SetAuthorization id noSecretRequest.
Proof.
  apply (proj2 (SetAuthorization_deterministic_total id) noSecretRequest noSecretRequest).
  - repeat split.
  - exists otherRange. split; [exact otherRange_perm | reflexivity].
  - exists (Header_keys (Header noSecretRequest)). split; reflexivity.
Defined.

Lemma advertised_headers_are_the_signed_lines_witness :
  exists names : list string,
    Sorted String.le names
    /\ SetAuthorizationRange id otherRange noSecretRequest
       = spec_authorization "id" names
           (spec_signature ""
              (spec_signing_string
                 (concat_strings (map (spec_header_line (Header noSecretRequest)) names))
                 "GET" "" "/ip?value=8.8.8.8")).
Proof.
  destruct (advertised_headers_are_the_signed_lines id noSecretRequest
              (SetAuthorizationRange id otherRange noSecretRequest))
    as (names & Hs & _ & Heq).
  - exists otherRange. split; [exact otherRange_perm | reflexivity].
  - exists names. split; [exact Hs | exact Heq].
Defined.

Lemma Send_sets_Authorization_iff_key_and_secret_witness :
  RequestHeader (Send_request id noSecretRequest) = Header noSecretRequest
  /\ RequestHeader (Send_request id pingRequest)
     = <["Authorization" := SetAuthorization id pingRequest]> (Header pingRequest).
Proof.
  split.
  - apply (Send_sets_Authorization_iff_key_and_secret id noSecretRequest).
    right. reflexivity.
  - apply (Send_sets_Authorization_iff_key_and_secret id pingRequest).
    split; discriminate.
Defined.

Example SetAuthorization_ping :
  SetAuthorization id pingRequest
  = "hmac id=" +:+ DQ +:+ "id" +:+ DQ +:+ ", algorithm=" +:+ DQ +:+ "hmac-sha256" +:+ DQ
      +:+ ", headers=" +:+ DQ +:+ "accept source x-date" +:+ DQ
      +:+ ", signature=" +:+ DQ +:+ "AoT805wojjCq2yNHwPr/gXtiuSuj0NFOlXnoUWh9KwQ=" +:+ DQ.
Proof. vm_compute. reflexivity. Qed.

Example SetAuthorization_empty_secret :
  SetAuthorization id noSecretRequest
  = "hmac id=" +:+ DQ +:+ "id" +:+ DQ +:+ ", algorithm=" +:+ DQ +:+ "hmac-sha256" +:+ DQ
      +:+ ", headers=" +:+ DQ +:+ "accept source x-date" +:+ DQ
      +:+ ", signature=" +:+ DQ +:+ "nLUGTO175a+hme3ST9mE+JUK4ng59BQVqcp6xyxkixM=" +:+ DQ.
Proof. vm_compute. reflexivity. Qed.

(** The name [Accept] is left out; [Host] and [host] both give the line of
    [host]; [X-Date] gives the line of [x-date] with the empty value, as the
    map holds nothing under [x-date]. *)
Example signToString_mixed_case :
  signToString id (Header_keys (Header mixedCaseRequest)) mixedCaseRequest
  = "host: b" +:+ LF +:+ "host: b" +:+ LF +:+ "x-date: " +:+ LF
      +:+ "POST" +:+ LF +:+ "application/json" +:+ LF +:+ LF
      +:+ "bb6cb5c68df4652941caf652a366f2d8" +:+ LF
      +:+ "/geo/x?a=1%26&b=2&b=3+4".
Proof. vm_compute. reflexivity. Qed.

Example SetAuthorization_mixed_case :
  SetAuthorization id mixedCaseRequest
  = "hmac id=" +:+ DQ +:+ "id" +:+ DQ +:+ ", algorithm=" +:+ DQ +:+ "hmac-sha256" +:+ DQ
      +:+ ", headers=" +:+ DQ +:+ "host host x-date" +:+ DQ
      +:+ ", signature=" +:+ DQ +:+ "LKHVzYqmucVQPPiss/anV68mJMfr5iHqboSeU1KYPu4=" +:+ DQ.
Proof. vm_compute. reflexivity. Qed.

(** [Send] on a request with a body: the digest of the body is signed and
    the request handed to the transport has no body. *)
Example Send_signs_body_it_does_not_send :
  contextMd5 mixedCaseRequest = "bb6cb5c68df4652941caf652a366f2d8"
  /\ RequestBody (Send_request id mixedCaseRequest) = None.
Proof. split; [vm_compute; reflexivity | apply Send_request_no_body]. Qed.

(** ** SetHeaders (lines 87-92) *)

Lemma fold_insert_union (kvs : list (string * string)) (h : gmap string string) :
  NoDup kvs.*1 ->
  fold_left (fun h kv => <[kv.1 := kv.2]> h) kvs h = list_to_map kvs ∪ h.
Proof.
  revert h. induction kvs as [|[k v] kvs IH]; intros h Hnd.
  - cbn. now rewrite (left_id_L ∅ (∪)).
  - cbn in Hnd. apply NoDup_cons in Hnd as [Hk Hnd]. cbn [fold_left fst snd].
    rewrite (IH _ Hnd). cbn [list_to_map foldr uncurry]. cbn.
    rewrite <- insert_union_l. apply eq_sym, insert_union_r.
    now apply not_elem_of_list_to_map_1.
Qed.

Lemma SetHeadersRange_record (kvs : list (string * string)) (x : OpenAPI) :
  SetHeadersRange kvs x
  = {| OpenAPI_Client := OpenAPI_Client x; Method := Method x; Path := Path x;
       Header := fold_left (fun h kv => <[kv.1 := kv.2]> h) kvs (Header x);
       Query := Query x; Body := Body x |}.
Proof.
  unfold SetHeadersRange. revert x. induction kvs as [|kv kvs IH]; intros x.
  - now destruct x.
  - cbn [fold_left]. now rewrite IH.
Qed.

(** The result of [SetHeaders] for every order of the loop of line 88. *)
Lemma SetHeadersRange_union (kvs : list (string * string)) (v : gmap string string)
    (x : OpenAPI) :
  kvs ≡ₚ map_to_list v ->
  SetHeadersRange kvs x
  = {| OpenAPI_Client := OpenAPI_Client x; Method := Method x; Path := Path x;
       Header := v ∪ Header x; Query := Query x; Body := Body x |}.
Proof.
  intros Hp. rewrite SetHeadersRange_record.
  assert (Hnd : NoDup kvs.*1) by (rewrite Hp; apply NoDup_fst_map_to_list).
  rewrite (fold_insert_union _ _ Hnd).
  rewrite (list_to_map_proper kvs (map_to_list v) Hnd Hp), list_to_map_to_list.
  reflexivity.
Qed.

(** X1: SetHeaders merges the given pairs into the headers of the request,
    in whatever order the loop visits them: afterwards a name of the given
    map has the given value, replacing the value the request had, every
    other name keeps its value, and no other field of the request changes. *)
Theorem SetHeaders_merges (kvs : list (string * string)) (v : gmap string string)
    (x : OpenAPI) :
  kvs ≡ₚ map_to_list v ->
  (forall k : string,
     Header (SetHeadersRange kvs x) !! k
     = match v !! k with
       | Some a => Some a
       | None => Header x !! k
       end)
  /\ OpenAPI_Client (SetHeadersRange kvs x) = OpenAPI_Client x
  /\ Method (SetHeadersRange kvs x) = Method x
  /\ Path (SetHeadersRange kvs x) = Path x
  /\ Query (SetHeadersRange kvs x) = Query x
  /\ Body (SetHeadersRange kvs x) = Body x.
Proof.
  intros Hp. rewrite (SetHeadersRange_union _ _ _ Hp). cbn.
  repeat split. intros k. rewrite lookup_union.
  destruct (v !! k), (Header x !! k); reflexivity.
Qed.

(** X2: two calls of SetHeaders in a row are one call with the second map
    laid over the first: on a name that both maps give, the later call
    wins. *)
Theorem SetHeaders_twice (v1 v2 : gmap string string) (x : OpenAPI) :
  SetHeaders v2 (SetHeaders v1 x) = SetHeaders (v2 ∪ v1) x.
Proof.
  unfold SetHeaders. rewrite !(SetHeadersRange_union _ _ _ (reflexivity _)). cbn.
  now rewrite (assoc_L (∪)).
Qed.

(** ** Which headers are signed, and with which values (lines 105-116) *)

Lemma lowerByte_not_upper (c : ascii) : GoStrings.isUpper (GoStrings.lowerByte c) = false.
Proof. destruct c as [[] [] [] [] [] [] [] []]; vm_compute; reflexivity. Qed.

Lemma lowerByte_fixes (c : ascii) :
  GoStrings.isUpper c = false -> GoStrings.lowerByte c = c.
Proof. unfold GoStrings.lowerByte. now intros ->. Qed.

(** A name of bytes below 0x80 is never lower-cased to [Accept]. *)
Lemma ToLower_not_Accept (u : string -> string) (k : string) :
  GoStrings.isASCII k = true -> GoStrings.ToLower u k <> "Accept".
Proof.
  unfold GoStrings.ToLower. intros ->. destruct k as [|c k]; [discriminate|].
  cbn [GoStrings.mapBytes]. intros Heq. injection Heq as Hc _.
  pose proof (lowerByte_not_upper c) as Hup. rewrite Hc in Hup. discriminate.
Qed.

Lemma ToLower_lower_case (u : string -> string) (k : string) :
  isLowerASCII k = true -> GoStrings.isASCII k = true /\ GoStrings.ToLower u k = k.
Proof.
  intros Hk.
  assert (H : GoStrings.isASCII k = true
              /\ GoStrings.mapBytes GoStrings.lowerByte k = k).
  { induction k as [|c k IH]; [now split|].
    cbn in Hk. apply andb_true_iff in Hk as [Hc Hk].
    apply andb_true_iff in Hc as [Hc Hup]. apply negb_true_iff in Hup.
    destruct (IH Hk) as [Ha Hm]. split.
    - cbn. now rewrite Hc, Ha.
    - cbn. now rewrite (lowerByte_fixes _ Hup), Hm. }
  destruct H as [Ha Hm]. split; [exact Ha|].
  unfold GoStrings.ToLower. now rewrite Ha.
Qed.

Lemma filter_all {A} (P : A -> Prop) `{forall a, Decision (P a)} (l : list A) :
  (forall a, a ∈ l -> P a) -> filter P l = l.
Proof.
  induction l as [|a l IH]; intros Hall; [reflexivity|].
  rewrite filter_cons_True by (apply Hall; left).
  f_equal. apply IH. intros b Hb. apply Hall. now right.
Qed.

(** The keys other than [i], up to their order, are the keys of the map
    without [i]. *)
Lemma keys_without (i : string) (m : gmap string string) :
  filter (fun k => k <> i) (map_to_list m).*1 ≡ₚ (map_to_list (delete i m)).*1.
Proof.
  destruct (m !! i) as [v|] eqn:Hi.
  - rewrite <- (insert_delete_id m i v Hi) at 1.
    rewrite map_to_list_insert by apply lookup_delete_eq.
    cbn [fmap list_fmap fst]. rewrite filter_cons_False by (intros H; now apply H).
    rewrite filter_all; [reflexivity|].
    intros k Hk. apply list_elem_of_fmap in Hk as ([k' v'] & -> & Hin).
    apply elem_of_map_to_list in Hin. cbn. intros ->.
    rewrite lookup_delete_eq in Hin. discriminate.
  - rewrite (delete_id m i Hi). rewrite filter_all; [reflexivity|].
    intros k Hk. apply list_elem_of_fmap in Hk as ([k' v'] & -> & Hin).
    apply elem_of_map_to_list in Hin. cbn. intros ->. congruence.
Qed.

Section HeaderFacts.

Variable unicodeToLower : string -> string.

Abbreviation lower := (GoStrings.ToLower unicodeToLower).

(** Every value a call may return is the value in the words of the
    specification, and that value is returned. *)
Lemma SetAuthorization_returns_spec (x : OpenAPI) (s : string) :
  SetAuthorization_returns unicodeToLower x s
  <-> s = spec_authorization
            (Key (Client_Option (OpenAPI_Client x)))
            (spec_header_names unicodeToLower (Header x))
            (spec_signature
               (Secret (Client_Option (OpenAPI_Client x)))
               (spec_signing_string (spec_canonical_header_block unicodeToLower (Header x))
                  (Method x) (contextMd5 x) (pathAndParameters x))).
Proof.
  split.
  - intros (ks & Hp & ->). apply (SetAuthorizationRange_spec _ _ _ Hp).
  - intros ->. exists (Header_keys (Header x)). split; [reflexivity|].
    symmetry. now apply SetAuthorizationRange_spec.
Qed.

Lemma spec_header_names_elem (h : gmap string string) (n : string) :
  In n (spec_header_names unicodeToLower h) ->
  exists k, n = lower k /\ k <> "Accept" /\ is_Some (h !! k).
Proof.
  unfold spec_header_names. intros Hin.
  apply (Permutation_in _ (Strings_Permutation _)) in Hin.
  apply in_map_iff in Hin as (k & <- & Hin). apply list_elem_of_In in Hin.
  apply list_elem_of_filter in Hin as [Hne Hin].
  apply list_elem_of_fmap in Hin as ([k' v] & -> & Hin).
  apply elem_of_map_to_list in Hin. exists k'. repeat split; [exact Hne | now exists v].
Qed.

Lemma spec_header_names_intro (h : gmap string string) (k v : string) :
  h !! k = Some v -> k <> "Accept" -> In (lower k) (spec_header_names unicodeToLower h).
Proof.
  intros Hk Hne. unfold spec_header_names.
  apply (Permutation_in _ (Permutation_sym (Strings_Permutation _))).
  apply in_map. apply list_elem_of_In. apply list_elem_of_filter. split; [exact Hne|].
  apply list_elem_of_fmap. exists (k, v). split; [reflexivity|].
  now apply elem_of_map_to_list.
Qed.

(** X3: a header stored under the exact name Accept is not signed: when the
    names of the headers are made of bytes below 0x80, setting or changing
    the header Accept leaves the set of values SetAuthorization returns
    unchanged. *)
Theorem Accept_header_is_not_signed (x : OpenAPI) (a s : string) :
  map_Forall (fun k _ => GoStrings.isASCII k = true) (Header x) ->
  SetAuthorization_returns unicodeToLower (Header_set "Accept" a x) s
  <-> SetAuthorization_returns unicodeToLower x s.
Proof.
  intros Hascii. rewrite !SetAuthorization_returns_spec.
  cbn [Header_set OpenAPI_Client Method Header]. unfold contextMd5, pathAndParameters.
  cbn [Header_set Body Query Path].
  assert (Hnames : spec_header_names unicodeToLower (<["Accept" := a]> (Header x))
                   = spec_header_names unicodeToLower (Header x)).
  { unfold spec_header_names, Header_keys. apply Strings_perm, Permutation_map.
    rewrite !keys_without. now rewrite delete_insert_eq. }
  assert (Hblock : spec_canonical_header_block unicodeToLower (<["Accept" := a]> (Header x))
                   = spec_canonical_header_block unicodeToLower (Header x)).
  { unfold spec_canonical_header_block. rewrite Hnames. f_equal.
    apply map_ext_in. intros n Hn.
    apply spec_header_names_elem in Hn as (k & -> & _ & [v Hk]).
    unfold spec_header_line, Header_index. rewrite lookup_insert_ne; [reflexivity|].
    apply not_eq_sym, ToLower_not_Accept. exact (Hascii k v Hk). }
  now rewrite Hnames, Hblock.
Qed.

(** X4: when every header name is lower-case (bytes below 0x80, no
    upper-case letter), the signed names are exactly the names of the map,
    sorted, and the header block has for each of them the line with the
    value the map holds for it. *)
Theorem lower_case_headers_are_signed_with_their_values (ks : list string) (x : OpenAPI) :
  map_Forall (fun k _ => isLowerASCII k = true) (Header x) ->
  ks ≡ₚ Header_keys (Header x) ->
  headers unicodeToLower ks = Sort.Strings (Header_keys (Header x))
  /\ headersKVString unicodeToLower ks x
     = concat_strings
         (map (fun k => k +:+ ": " +:+ default "" (Header x !! k) +:+ LF)
              (Sort.Strings (Header_keys (Header x))))
  /\ (forall k v, Header x !! k = Some v ->
        In k (headers unicodeToLower ks) /\ Header_index (Header x) k = v).
Proof.
  intros Hlow Hp.
  assert (Hkeys : map lower (filter (fun k => k <> "Accept") (Header_keys (Header x)))
                  = Header_keys (Header x)).
  { assert (Hall : forall k, k ∈ Header_keys (Header x) -> isLowerASCII k = true).
    { intros k Hk. apply list_elem_of_fmap in Hk as ([k' v] & -> & Hin).
      apply elem_of_map_to_list in Hin. exact (Hlow k' v Hin). }
    rewrite filter_all by (intros k Hk ->; apply Hall in Hk; discriminate).
    rewrite <- (map_id (Header_keys (Header x))) at 2.
    apply map_ext_in. intros k Hk. apply list_elem_of_In in Hk.
    now apply ToLower_lower_case, Hall. }
  assert (Hh : headers unicodeToLower ks = Sort.Strings (Header_keys (Header x))).
  { rewrite (headers_spec _ _ _ Hp). unfold spec_header_names. now rewrite Hkeys. }
  split; [exact Hh|]. split.
  - rewrite headersKVString_lines, Hh. reflexivity.
  - intros k v Hk. split.
    + rewrite Hh. apply (Permutation_in _ (Permutation_sym (Strings_Permutation _))).
      apply list_elem_of_In, list_elem_of_fmap. exists (k, v). split; [reflexivity|].
      now apply elem_of_map_to_list.
    + unfold Header_index. now rewrite Hk.
Qed.

(** X5: a header stored under a name that lower-cases to a name the map
    does not hold is signed by name only: the header block has the line of
    the lower-cased name with the empty value, whatever value the header
    has. *)
Theorem other_case_header_is_signed_without_its_value
    (ks : list string) (x : OpenAPI) (k v : string) :
  ks ≡ₚ Header_keys (Header x) ->
  Header x !! k = Some v ->
  k <> "Accept" ->
  Header x !! lower k = None ->
  exists before after : string,
    headersKVString unicodeToLower ks x
    = before +:+ (lower k +:+ ": " +:+ LF) +:+ after.
Proof.
  intros Hp Hk Hne Hnone.
  rewrite headersKVString_lines, (headers_spec _ _ _ Hp).
  destruct (in_split _ _ (spec_header_names_intro _ _ _ Hk Hne)) as (l1 & l2 & ->).
  exists (concat_strings (map (spec_header_line (Header x)) l1)),
         (concat_strings (map (spec_header_line (Header x)) l2)).
  rewrite map_app. cbn [map].
  assert (Happ : forall a b, concat_strings (a ++ b) = concat_strings a +:+ concat_strings b).
  { intros a b. induction a as [|y a IH]; [reflexivity|].
    cbn [app concat_strings fold_right]. fold (concat_strings (a ++ b)).
    fold (concat_strings a). now rewrite IH, append_assoc. }
  rewrite Happ. cbn [concat_strings fold_right].
  unfold spec_header_line at 2, Header_index. rewrite Hnone. reflexivity.
Qed.

End HeaderFacts.

(** ** The requests of R (lines 65-76) *)

Lemma concat_strings_app (a b : list string) :
  concat_strings (a ++ b) = concat_strings a +:+ concat_strings b.
Proof.
  induction a as [|y a IH]; [reflexivity|].
  cbn [app concat_strings fold_right]. fold (concat_strings (a ++ b)).
  fold (concat_strings a). now rewrite IH, append_assoc.
Qed.

Lemma R_header_names (u : string -> string) (c : Client) (date method path : string) :
  spec_header_names u (Header (R c date method path)) = ["accept"; "source"; "x-date"].
Proof. vm_compute. reflexivity. Qed.

Lemma R_header_block (u : string -> string) (c : Client) (date method path : string) :
  spec_canonical_header_block u (Header (R c date method path))
  = "accept: application/json" +:+ LF +:+ "source: apigw test" +:+ LF
      +:+ "x-date: " +:+ date +:+ LF.
Proof.
  unfold spec_canonical_header_block. rewrite R_header_names.
  cbn [map concat_strings fold_right]. rewrite append_nil_r.
  unfold spec_header_line.
  assert (Hd : Header_index (Header (R c date method path)) "x-date" = date)
    by (vm_compute; reflexivity).
  rewrite Hd. vm_compute. reflexivity.
Qed.

(** X6: a request as R makes it, for whatever client, date, method and path,
    is signed over exactly the three default headers accept, source and
    x-date (the lower-case accept is signed, only the name Accept is left
    out), with the date given at construction, an empty body digest and the
    bare path. *)
Theorem R_request_signs_the_default_headers
    (u : string -> string) (c : Client) (date method path s : string) :
  SetAuthorization_returns u (R c date method path) s
  <-> s = spec_authorization (Key (Client_Option c)) ["accept"; "source"; "x-date"]
            (spec_signature (Secret (Client_Option c))
               ("accept: application/json" +:+ LF +:+ "source: apigw test" +:+ LF
                  +:+ "x-date: " +:+ date +:+ LF
                  +:+ method +:+ LF +:+ "application/json" +:+ LF +:+ LF +:+ LF +:+ path)).
Proof.
  rewrite SetAuthorization_returns_spec, R_header_names, R_header_block.
  unfold spec_signing_string. cbn [R OpenAPI_Client Method contextMd5 pathAndParameters
    Body Query Path].
  rewrite !append_assoc. reflexivity.
Qed.

(** ** The form of the signature (lines 131-133) *)

Lemma le_bytes_length (n : nat) (z : Z) : length (le_bytes n z) = n.
Proof. revert z. induction n as [|n IH]; intros z; cbn; [reflexivity | now rewrite IH]. Qed.

Lemma be_bytes_length (n : nat) (z : Z) : length (be_bytes n z) = n.
Proof. unfold be_bytes. now rewrite length_rev, le_bytes_length. Qed.

Lemma SHA256_round_length (st : list Z) (kw : Z * Z) :
  length (SHA256.round st kw) = length st.
Proof.
  unfold SHA256.round.
  destruct st as [|a [|b [|c [|d [|e [|f [|g [|h [|i st]]]]]]]]]; reflexivity.
Qed.

Lemma SHA256_rounds_length (kws : list (Z * Z)) (st : list Z) :
  length (fold_left SHA256.round kws st) = length st.
Proof.
  revert st. induction kws as [|kw kws IH]; intros st; cbn; [reflexivity|].
  now rewrite IH, SHA256_round_length.
Qed.

Lemma SHA256_block_length (h p : list Z) : length (SHA256.block h p) = length h.
Proof.
  unfold SHA256.block. rewrite length_map, length_combine, SHA256_rounds_length. lia.
Qed.

Lemma SHA256_blocks_length (ps : list (list Z)) (h : list Z) :
  length (fold_left SHA256.block ps h) = length h.
Proof.
  revert h. induction ps as [|p ps IH]; intros h; cbn; [reflexivity|].
  now rewrite IH, SHA256_block_length.
Qed.

Lemma flat_map_be_bytes_length (l : list Z) :
  length (flat_map (be_bytes 4) l) = (4 * length l)%nat.
Proof.
  induction l as [|z l IH]; [reflexivity|].
  cbn [flat_map]. rewrite length_app, be_bytes_length, IH. cbn [length]. lia.
Qed.

(** A SHA-256 digest has 32 bytes. *)
Lemma SHA256_digest_length (data : list Z) : length (SHA256.digest data) = 32%nat.
Proof.
  unfold SHA256.digest. rewrite flat_map_be_bytes_length, SHA256_blocks_length.
  reflexivity.
Qed.

Lemma HMAC_SumSHA256_length (key msg : list byte) :
  length (HMAC.SumSHA256 key msg) = 32%nat.
Proof. unfold HMAC.SumSHA256. now rewrite length_map, SHA256_digest_length. Qed.

Lemma sextet_base64 (z : Z) : isBase64Char (Base64.sextet z) = true.
Proof.
  unfold Base64.sextet. change 0x3f with (Z.ones 6).
  rewrite Z.land_ones by lia.
  assert (Hr : 0 <= z mod 2 ^ 6 < 64) by (apply Z.mod_pos_bound; lia).
  assert (Hall : forallb (fun n => isBase64Char (Hex.digit Base64.encodeStd (Z.of_nat n)))
                         (seq 0 64) = true) by (vm_compute; reflexivity).
  rewrite forallb_forall in Hall.
  rewrite <- (Z2Nat.id (z mod 2 ^ 6)) by lia.
  apply Hall, in_seq. lia.
Qed.

Lemma Base64_encode_shape (l : list Z) :
  (String.length (Base64.encode l) = 4 * ((length l + 2) / 3))%nat
  /\ allChars isBase64Char (Base64.encode l) = true.
Proof.
  assert (H : forall l : list Z,
    ((String.length (Base64.encode l) = 4 * ((length l + 2) / 3))%nat
     /\ allChars isBase64Char (Base64.encode l) = true)
    /\ (forall a, (String.length (Base64.encode (a :: l))
                   = 4 * ((length (a :: l) + 2) / 3))%nat
                  /\ allChars isBase64Char (Base64.encode (a :: l)) = true)
    /\ (forall a b, (String.length (Base64.encode (a :: b :: l))
                     = 4 * ((length (a :: b :: l) + 2) / 3))%nat
                    /\ allChars isBase64Char (Base64.encode (a :: b :: l)) = true)).
  { clear l. induction l as [|c l IH].
    - repeat split; intros; cbn [Base64.encode allChars]; rewrite ?sextet_base64; reflexivity.
    - destruct IH as (H0 & H1 & H2). split; [exact (H1 c)|].
      split; [intros a; exact (H2 a c)|].
      intros a b. destruct H0 as [Hlen Hch]. split.
      + cbn [Base64.encode String.length length]. rewrite Hlen.
        replace (S (S (S (length l))) + 2)%nat with (1 * 3 + (length l + 2))%nat by lia.
        rewrite Nat.div_add_l by lia. lia.
      + cbn [Base64.encode allChars]. now rewrite !sextet_base64, Hch. }
  apply H.
Qed.

(** X7: the signature that SetAuthorization puts into its value always has
    44 characters of the base64 alphabet (letters, digits, plus, slash and
    the padding sign), whatever the secret, also the empty one, and whatever
    is signed. *)
Theorem signature_has_44_base64_characters
    (u : string -> string) (ks : list string) (x : OpenAPI) :
  String.length (signature u ks x) = 44%nat
  /\ allChars isBase64Char (signature u ks x) = true.
Proof.
  unfold signature, Base64.EncodeToString.
  destruct (Base64_encode_shape
              (map byte_to_Z
                 (HMAC.SumSHA256
                    (bytes_of_string (Secret (Client_Option (OpenAPI_Client x))))
                    (bytes_of_string (signToString u ks x))))) as [Hlen Hch].
  split; [|exact Hch].
  rewrite Hlen, length_map, HMAC_SumSHA256_length. reflexivity.
Qed.

(** ** What Send transmits (lines 140-157) *)

(** The request depends on the client through its [Option] only. *)
Lemma SetAuthorization_fields (u : string -> string) (x y : OpenAPI) :
  Client_Option (OpenAPI_Client x) = Client_Option (OpenAPI_Client y) ->
  Method x = Method y -> Path x = Path y -> Header x = Header y ->
  Query x = Query y -> Body x = Body y ->
  SetAuthorization u x = SetAuthorization u y.
Proof.
  intros Ho Hm Hp Hh Hq Hb.
  unfold SetAuthorization, SetAuthorizationRange, signature, signToString,
    headersKVString, contextMd5, pathAndParameters.
  now rewrite Ho, Hm, Hp, Hh, Hq, Hb.
Qed.

Lemma Send_request_fields (u : string -> string) (x y : OpenAPI) :
  Client_Option (OpenAPI_Client x) = Client_Option (OpenAPI_Client y) ->
  Method x = Method y -> Path x = Path y -> Header x = Header y ->
  Query x = Query y -> Body x = Body y ->
  Send_request u x = Send_request u y.
Proof.
  intros Ho Hm Hp Hh Hq Hb. unfold Send_request.
  rewrite (SetAuthorization_fields u x y Ho Hm Hp Hh Hq Hb).
  now rewrite Ho, Hm, Hp, Hh, Hq.
Qed.

(** X8: Send never puts a body on the request: whatever body the descriptor
    holds, the request handed to the transport has none, and two descriptors
    that differ in the body only give requests with the same method, the
    same URI and the same headers except for the value of Authorization. *)
Theorem Send_does_not_transmit_the_body
    (u : string -> string) (b : option (list byte)) (x : OpenAPI) :
  RequestBody (Send_request u (withBody b x)) = None
  /\ RequestMethod (Send_request u (withBody b x)) = RequestMethod (Send_request u x)
  /\ RequestURI (Send_request u (withBody b x)) = RequestURI (Send_request u x)
  /\ (forall k : string,
        k <> "Authorization" ->
        RequestHeader (Send_request u (withBody b x)) !! k
        = RequestHeader (Send_request u x) !! k).
Proof.
  pose proof (Send_request_cases u (withBody b x)) as H1.
  pose proof (Send_request_cases u x) as H2. cbv zeta in H1, H2.
  rewrite H1, H2. cbn [withBody OpenAPI_Client].
  destruct (negb _ && negb _); cbn [Request_SetHeader unsignedRequest RequestBody
    RequestMethod RequestURI RequestHeader withBody Method Path Query Header OpenAPI_Client];
    repeat split; intros k Hk; now rewrite ?lookup_insert_ne by congruence.
Qed.

(** ** New and SetApiGateway (lines 37-62) *)

Lemma fold_SetApiGateway (creds : list (string * string)) (c : Client) :
  fold_left (fun x v => v x) (map (fun kt => SetApiGateway kt.1 kt.2) creds) c
  = match last creds with
    | Some (key, secret) =>
        {| Client_Client := Client_Client c;
           Client_Option := {| Url := Url (Client_Option c); Key := key; Secret := secret |} |}
    | None => c
    end.
Proof.
  revert c. induction creds as [|[k s] creds IH]; intros c; [reflexivity|].
  cbn [map fold_left fst snd]. rewrite IH, last_cons.
  destruct (last creds) as [[k' s']|]; reflexivity.
Qed.

(** X9: New gives the client the URL it is called with and the transport
    that NewClient made; of several SetApiGateway options the last one
    decides the key and the secret, and without any the key and the secret
    are empty. When NewClient fails, New fails with its error. *)
Theorem New_takes_the_last_credentials
    (hc : HertzClient) (url : string) (creds : list (string * string)) :
  New (inl hc) url (map (fun kt => SetApiGateway kt.1 kt.2) creds)
  = inl {| Client_Client := hc;
           Client_Option :=
             {| Url := url;
                Key := (default ("", "") (last creds)).1;
                Secret := (default ("", "") (last creds)).2 |} |}
  /\ (forall (e : error) (options : list OptionFunc), New (inr e) url options = inr e).
Proof.
  split; [|reflexivity]. unfold New. rewrite fold_SetApiGateway.
  destruct (last creds) as [[k s]|]; reflexivity.
Qed.

(** X10: a client made by New whose last SetApiGateway option has an empty
    key or an empty secret, or that has no such option, sends the requests
    of R unsigned: the request carries the three default headers and no
    Authorization header. *)
Theorem client_without_credentials_sends_unsigned
    (u : string -> string) (hc : HertzClient) (url : string)
    (creds : list (string * string)) (c : Client) (date method path : string) :
  New (inl hc) url (map (fun kt => SetApiGateway kt.1 kt.2) creds) = inl c ->
  (default ("", "") (last creds)).1 = "" \/ (default ("", "") (last creds)).2 = "" ->
  RequestHeader (Send_request u (R c date method path)) = Header (R c date method path)
  /\ RequestHeader (Send_request u (R c date method path)) !! "Authorization" = None.
Proof.
  intros Hnew Hempty. unfold New in Hnew. rewrite fold_SetApiGateway in Hnew.
  assert (Hc : Key (Client_Option c) = (default ("", "") (last creds)).1
               /\ Secret (Client_Option c) = (default ("", "") (last creds)).2).
  { destruct (last creds) as [[k s]|]; injection Hnew as <-; split; reflexivity. }
  destruct Hc as [Hk Hs].
  pose proof (Send_request_cases u (R c date method path)) as Hcases. cbv zeta in Hcases.
  assert (Hcond : negb (Key (Client_Option c) =? "")%string
                  && negb (Secret (Client_Option c) =? "")%string = false).
  { destruct Hempty as [He|He].
    - rewrite Hk, He. reflexivity.
    - rewrite Hs, He. apply andb_false_r. }
  cbn [R OpenAPI_Client] in Hcases. rewrite Hcond in Hcases. rewrite Hcases.
  split; [reflexivity|]. vm_compute. reflexivity.
Qed.

(** ** The endpoint methods (lines 160-238) *)

Lemma QueryEscape_app (a b : string) :
  URL.QueryEscape (a +:+ b) = URL.QueryEscape a +:+ URL.QueryEscape b.
Proof.
  induction a as [|c a IH]; [reflexivity|].
  cbn [String.append URL.QueryEscape]. rewrite IH.
  destruct (URL.shouldEscape c); [destruct (ascii_to_Z c =? 32)|]; reflexivity.
Qed.

(** The escaped list of fields: each field escaped, and [%2C] for each
    comma between two fields. *)
Lemma QueryEscape_Join_comma (fields : list string) :
  URL.QueryEscape (GoStrings.Join fields ",")
  = GoStrings.Join (map URL.QueryEscape fields) "%2C".
Proof.
  destruct fields as [|f fields]; [reflexivity|].
  cbn [map]. rewrite !Join_cons, QueryEscape_app. f_equal.
  induction fields as [|g fields IH]; [reflexivity|].
  cbn [map concat_strings fold_right].
  fold (concat_strings (map (fun q => "," +:+ q) fields)).
  fold (concat_strings (map (fun q => "%2C" +:+ q) (map URL.QueryEscape fields))).
  rewrite QueryEscape_app, IH. reflexivity.
Qed.

Lemma Send_request_method (u : string -> string) (x : OpenAPI) :
  RequestMethod (Send_request u x) = Method x.
Proof.
  rewrite Send_request_cases. cbv zeta. destruct (negb _ && negb _); reflexivity.
Qed.

(** With a query that is not nil, what is signed and what is sent. *)
Lemma present_query_line (u : string -> string) (x : OpenAPI)
    (m : gmap string (list string)) :
  Query x = Some m ->
  pathAndParameters x = Path x +:+ "?" +:+ spec_query_string m
  /\ RequestURI (Send_request u x)
     = Url (Client_Option (OpenAPI_Client x)) +:+ Path x +:+ "?" +:+ spec_query_string m.
Proof.
  intros Hq. rewrite Send_request_URI. unfold pathAndParameters. rewrite Hq.
  now rewrite Sprintf_query, Encode_spec.
Qed.

(** The query strings of the endpoints; the escaping function is abstracted
    while the maps are evaluated. *)
Ltac query_string :=
  unfold spec_query_string, spec_query_pairs;
  generalize URL.QueryEscape; intros esc; vm_compute; reflexivity.

Lemma one_parameter_query (k v : string) :
  spec_query_string (URL.Values_Set k v ∅)
  = URL.QueryEscape k +:+ "=" +:+ URL.QueryEscape v.
Proof.
  unfold spec_query_string, spec_query_pairs, URL.Values_Set.
  rewrite insert_empty, map_to_list_singleton. cbn [fmap list_fmap fst].
  change (Sort.Strings [k]) with [k]. cbn [flat_map].
  rewrite lookup_singleton_eq. cbn [default map app GoStrings.Join]. reflexivity.
Qed.

Lemma GetStates_query (country f : string) :
  spec_query_string (URL.Values_Set "fields" f (URL.Values_Set "country" country ∅))
  = (URL.QueryEscape "country" +:+ "=" +:+ URL.QueryEscape country)
      +:+ "&" +:+ (URL.QueryEscape "fields" +:+ "=" +:+ URL.QueryEscape f).
Proof. query_string. Qed.

Lemma GetCities_query (country state f : string) :
  spec_query_string
    (URL.Values_Set "fields" f
       (URL.Values_Set "state" state (URL.Values_Set "country" country ∅)))
  = (URL.QueryEscape "country" +:+ "=" +:+ URL.QueryEscape country)
      +:+ "&" +:+ (URL.QueryEscape "fields" +:+ "=" +:+ URL.QueryEscape f)
      +:+ "&" +:+ (URL.QueryEscape "state" +:+ "=" +:+ URL.QueryEscape state).
Proof. query_string. Qed.

Section EndpointFacts.

Variable unicodeToLower : string -> string.
Variable GoValue Country State City : Type.
Variable Unmarshal : forall T : Type, list byte -> T -> T * option error.

(** X11: GetIp sends a GET whose URI is the base URL followed by
    /ip?value= and the address escaped as a query component, and that same
    path and query is what is signed; an empty address gives /ip?value= . *)
Theorem GetIp_sends_and_signs_the_escaped_address (c : Client) (date ip : string) :
  RequestMethod (Send_request unicodeToLower (GetIp_request c date ip)) = "GET"
  /\ RequestURI (Send_request unicodeToLower (GetIp_request c date ip))
     = Url (Client_Option c) +:+ "/ip?value=" +:+ URL.QueryEscape ip
  /\ pathAndParameters (GetIp_request c date ip) = "/ip?value=" +:+ URL.QueryEscape ip.
Proof.
  destruct (present_query_line unicodeToLower (GetIp_request c date ip) _ eq_refl)
    as [Hsigned Hsent].
  rewrite Send_request_method, Hsigned, Hsent, one_parameter_query.
  repeat split.
Qed.

(** X12: GetCountries sends and signs /geo/countries?fields= followed by the
    fields, each escaped as a query component and separated by %2C, the
    escaped comma; without fields the query is fields= with nothing after
    it. *)
Theorem GetCountries_sends_and_signs_the_escaped_fields
    (c : Client) (date : string) (fields : list string) :
  RequestURI (Send_request unicodeToLower (GetCountries_request c date fields))
  = Url (Client_Option c) +:+ "/geo/countries?fields="
      +:+ GoStrings.Join (map URL.QueryEscape fields) "%2C"
  /\ pathAndParameters (GetCountries_request c date fields)
     = "/geo/countries?fields=" +:+ GoStrings.Join (map URL.QueryEscape fields) "%2C"
  /\ pathAndParameters (GetCountries_request c date []) = "/geo/countries?fields=".
Proof.
  assert (H : forall fs,
    RequestURI (Send_request unicodeToLower (GetCountries_request c date fs))
    = Url (Client_Option c) +:+ "/geo/countries?fields="
        +:+ GoStrings.Join (map URL.QueryEscape fs) "%2C"
    /\ pathAndParameters (GetCountries_request c date fs)
       = "/geo/countries?fields=" +:+ GoStrings.Join (map URL.QueryEscape fs) "%2C").
  { intros fs.
    destruct (present_query_line unicodeToLower (GetCountries_request c date fs) _ eq_refl)
      as [Hsigned Hsent].
    rewrite Hsigned, Hsent, one_parameter_query, QueryEscape_Join_comma. split; reflexivity. }
  destruct (H fields) as [H1 H2]. destruct (H []) as [_ H3].
  repeat split; assumption.
Qed.

(** X13: GetStates and GetCities send and sign their parameters in the
    order of the names, not in the order in which they were set: country,
    then fields, then (for GetCities) state, each value escaped as a query
    component. *)
Theorem GetStates_GetCities_order_parameters_by_name
    (c : Client) (date country state : string) (fields : list string) :
  pathAndParameters (GetStates_request c date country fields)
  = "/geo/states?country=" +:+ URL.QueryEscape country
      +:+ "&fields=" +:+ GoStrings.Join (map URL.QueryEscape fields) "%2C"
  /\ RequestURI (Send_request unicodeToLower (GetStates_request c date country fields))
     = Url (Client_Option c) +:+ pathAndParameters (GetStates_request c date country fields)
  /\ pathAndParameters (GetCities_request c date country state fields)
     = "/geo/cities?country=" +:+ URL.QueryEscape country
         +:+ "&fields=" +:+ GoStrings.Join (map URL.QueryEscape fields) "%2C"
         +:+ "&state=" +:+ URL.QueryEscape state
  /\ RequestURI
       (Send_request unicodeToLower (GetCities_request c date country state fields))
     = Url (Client_Option c)
         +:+ pathAndParameters (GetCities_request c date country state fields).
Proof.
  destruct (present_query_line unicodeToLower
              (GetStates_request c date country fields) _ eq_refl) as [Hs1 Hs2].
  destruct (present_query_line unicodeToLower
              (GetCities_request c date country state fields) _ eq_refl) as [Hc1 Hc2].
  rewrite Hs2, Hc2, Hs1, Hc1, GetStates_query, GetCities_query, QueryEscape_Join_comma.
  cbn [GetStates_request GetCities_request SetQuery R Path OpenAPI_Client].
  rewrite !append_assoc. repeat split.
Qed.

(** The request of an endpoint does not depend on the transport, and the
    transport of [mapStatus] answers as the one it wraps. *)
Ltac status_ignored request :=
  unfold Send;
  rewrite (Send_request_fields unicodeToLower _ request)
    by reflexivity;
  cbn [OpenAPI_Client GetIp_request GetCountries_request GetStates_request
       GetCities_request SetQuery R mapStatus Client_Client Do];
  match goal with
  | |- context [Do ?t ?r] => destruct (Do t r) as [resp [e|]]
  end; reflexivity.

(** X14: no endpoint looks at the status code of the response: replacing
    every status code that the transport reports by any other leaves the
    result and the error of Ping, GetIp, GetCountries, GetStates and
    GetCities unchanged. *)
Theorem endpoints_ignore_the_status_code
    (f : Z -> Z) (c : Client) (date ip country state : string) (fields : list string) :
  Ping unicodeToLower GoValue Unmarshal (mapStatus f c) date
  = Ping unicodeToLower GoValue Unmarshal c date
  /\ GetIp unicodeToLower GoValue Unmarshal (mapStatus f c) date ip
     = GetIp unicodeToLower GoValue Unmarshal c date ip
  /\ GetCountries unicodeToLower Country Unmarshal (mapStatus f c) date fields
     = GetCountries unicodeToLower Country Unmarshal c date fields
  /\ GetStates unicodeToLower State Unmarshal (mapStatus f c) date country fields
     = GetStates unicodeToLower State Unmarshal c date country fields
  /\ GetCities unicodeToLower City Unmarshal (mapStatus f c) date country state fields
     = GetCities unicodeToLower City Unmarshal c date country state fields.
Proof.
  repeat split.
  - unfold Ping, Ping_Send. status_ignored (R c date "GET" "/").
  - unfold GetIp. status_ignored (GetIp_request c date ip).
  - unfold GetCountries. status_ignored (GetCountries_request c date fields).
  - unfold GetStates. status_ignored (GetStates_request c date country fields).
  - unfold GetCities. status_ignored (GetCities_request c date country state fields).
Qed.

(** X15: when the transport reports an error, an endpoint returns the nil
    result and that error, and does not decode the response. *)
Theorem endpoints_return_the_transport_error
    (c : Client) (date ip country state : string) (fields : list string) (e : error) :
  (forall req, (Do (Client_Client c) req).2 = Some e) ->
  Ping unicodeToLower GoValue Unmarshal c date = (None, Some e)
  /\ GetIp unicodeToLower GoValue Unmarshal c date ip = (None, Some e)
  /\ GetCountries unicodeToLower Country Unmarshal c date fields = (None, Some e)
  /\ GetStates unicodeToLower State Unmarshal c date country fields = (None, Some e)
  /\ GetCities unicodeToLower City Unmarshal c date country state fields = (None, Some e).
Proof.
  intros Hfail.
  assert (H : forall x : OpenAPI, OpenAPI_Client x = c ->
                exists resp, Send unicodeToLower x = (resp, Some e)).
  { intros x Hx. unfold Send. rewrite Hx.
    specialize (Hfail (Send_request unicodeToLower x)).
    destruct (Do (Client_Client c) _) as [resp err]. cbn in Hfail. subst err.
    now exists resp. }
  repeat split.
  - unfold Ping, Ping_Send. destruct (H (R c date "GET" "/") eq_refl) as [resp ->].
    reflexivity.
  - unfold GetIp. destruct (H (GetIp_request c date ip) eq_refl) as [resp ->].
    reflexivity.
  - unfold GetCountries.
    destruct (H (GetCountries_request c date fields) eq_refl) as [resp ->]. reflexivity.
  - unfold GetStates.
    destruct (H (GetStates_request c date country fields) eq_refl) as [resp ->].
    reflexivity.
  - unfold GetCities.
    destruct (H (GetCities_request c date country state fields) eq_refl) as [resp ->].
    reflexivity.
Qed.

(** X16: the URI that Send transmits is the base URL followed by the signed
    path and parameters exactly when the query of the request is not nil. *)
Theorem sent_URI_is_signed_iff_query_present (x : OpenAPI) :
  RequestURI (Send_request unicodeToLower x)
  = Url (Client_Option (OpenAPI_Client x)) +:+ pathAndParameters x
  <-> Query x <> None.
Proof.
  rewrite Send_request_URI. unfold pathAndParameters.
  destruct (Query x) as [m|] eqn:Hq.
  - rewrite Sprintf_query. split; [discriminate | reflexivity].
  - split; [|congruence]. intros Heq.
    apply (f_equal String.length) in Heq. rewrite !append_length in Heq.
    cbn in Heq. lia.
Qed.

End EndpointFacts.

(** ** Header values are signed as they are (lines 114-116, 128-133) *)

Lemma Strings_of_sorted (l : list string) : Sorted String.le l -> Sort.Strings l = l.
Proof.
  intros Hs. apply (Sorted_unique String.le); [apply Strings_sorted_le | exact Hs|].
  apply Strings_Permutation.
Qed.

Lemma lower_case_header_names (u : string -> string) (h : gmap string string) :
  map_Forall (fun k _ => isLowerASCII k = true) h ->
  spec_header_names u h = Sort.Strings (Header_keys h).
Proof.
  intros Hlow. unfold spec_header_names. f_equal.
  assert (Hall : forall k, k ∈ Header_keys h -> isLowerASCII k = true).
  { intros k Hk. apply list_elem_of_fmap in Hk as ([k' v] & -> & Hin).
    apply elem_of_map_to_list in Hin. exact (Hlow k' v Hin). }
  rewrite filter_all by (intros k Hk ->; apply Hall in Hk; discriminate).
  rewrite <- (map_id (Header_keys h)) at 2.
  apply map_ext_in. intros k Hk. apply list_elem_of_In in Hk.
  now apply ToLower_lower_case, Hall.
Qed.

(** X17: header values go into the signing string as they are, so a line
    feed in a value can stand for the start of another header: for two
    different lower-case names n1 before n2, the request with the single
    header n1 whose value is v1, a line feed, n2, a colon, a space and v2
    gets the same signature as the request with the two headers n1: v1 and
    n2: v2, although the two list different signed headers. *)
Theorem line_feed_in_a_value_is_signed_as_a_header_line
    (u : string -> string) (c : Client) (method path : string) (q : URL.Values)
    (b : option (list byte)) (n1 n2 v1 v2 : string) (ks1 ks2 : list string) :
  let x1 := {| OpenAPI_Client := c; Method := method; Path := path;
               Header := {[ n1 := v1 +:+ LF +:+ n2 +:+ ": " +:+ v2 ]};
               Query := q; Body := b |} in
  let x2 := {| OpenAPI_Client := c; Method := method; Path := path;
               Header := <[n1 := v1]> {[ n2 := v2 ]};
               Query := q; Body := b |} in
  isLowerASCII n1 = true -> isLowerASCII n2 = true ->
  n1 <> n2 -> String.le n1 n2 ->
  ks1 ≡ₚ Header_keys (Header x1) -> ks2 ≡ₚ Header_keys (Header x2) ->
  signature u ks1 x1 = signature u ks2 x2
  /\ headers u ks1 = [n1]
  /\ headers u ks2 = [n1; n2].
Proof.
  intros x1 x2 Hl1 Hl2 Hne Hle Hp1 Hp2.
  assert (Hn1 : headers u ks1 = [n1]).
  { rewrite (headers_spec _ _ _ Hp1). subst x1. cbn [Header].
    rewrite lower_case_header_names by now apply map_Forall_singleton.
    unfold Header_keys. now rewrite map_to_list_singleton. }
  assert (Hn2 : headers u ks2 = [n1; n2]).
  { rewrite (headers_spec _ _ _ Hp2). subst x2. cbn [Header].
    rewrite lower_case_header_names
      by (apply map_Forall_insert_2; [exact Hl1 | now apply map_Forall_singleton]).
    rewrite <- (Strings_of_sorted [n1; n2])
      by (repeat constructor; exact Hle).
    apply Strings_perm. unfold Header_keys.
    rewrite map_to_list_insert by now apply lookup_singleton_ne.
    now rewrite map_to_list_singleton. }
  split; [|split; assumption].
  unfold signature. f_equal. f_equal.
  unfold signToString. rewrite !Sprintf_signToString, !headersKVString_lines, Hn1, Hn2.
  cbn [map concat_strings fold_right]. unfold spec_header_line, Header_index.
  subst x1 x2. cbn [Header Method OpenAPI_Client contextMd5 pathAndParameters Body Query Path].
  rewrite lookup_singleton_eq, lookup_insert_eq, lookup_insert_ne by exact Hne.
  rewrite lookup_singleton_eq. cbn [default]. unfold id.
  rewrite !append_nil_r, !append_assoc. reflexivity.
Qed.

(** ** The further theorems on concrete requests *)

Lemma pingRequest_names_lower_case :
  map_Forall (fun k _ => isLowerASCII k = true) (Header pingRequest).
Proof.
  unfold pingRequest, R. cbn [Header].
  repeat (apply map_Forall_insert_2; [reflexivity|]). apply map_Forall_empty.
Qed.

Lemma noSecretRequest_names_lower_case :
  map_Forall (fun k _ => isLowerASCII k = true) (Header noSecretRequest).
Proof.
  unfold noSecretRequest, SetQuery, R. cbn [Header].
  repeat (apply map_Forall_insert_2; [reflexivity|]). apply map_Forall_empty.
Qed.

Lemma pingRequest_names_ascii :
  map_Forall (fun k _ => GoStrings.isASCII k = true) (Header pingRequest).
Proof.
  unfold pingRequest, R. cbn [Header].
  repeat (apply map_Forall_insert_2; [reflexivity|]). apply map_Forall_empty.
Qed.

Lemma SetHeaders_merges_witness :
  Header (SetHeadersRange (reverse (map_to_list exampleHeaders)) pingRequest) !! "accept"
  = Some "text/plain"
  /\ Header (SetHeadersRange (reverse (map_to_list exampleHeaders)) pingRequest) !! "source"
     = Some "apigw test".
Proof.
  destruct (SetHeaders_merges (reverse (map_to_list exampleHeaders)) exampleHeaders
              pingRequest (reverse_Permutation _)) as [Hlookup _].
  split.
  - rewrite (Hlookup "accept"). vm_compute. reflexivity.
  - rewrite (Hlookup "source"). vm_compute. reflexivity.
Defined.

Lemma Accept_header_is_not_signed_witness :
  SetAuthorization_returns id (Header_set "Accept" "text/html" pingRequest)
    (SetAuthorization id pingRequest).
Proof.
  apply (Accept_header_is_not_signed id pingRequest "text/html"
           (SetAuthorization id pingRequest) pingRequest_names_ascii).
  exists (Header_keys (Header pingRequest)). split; reflexivity.
Defined.

Lemma lower_case_headers_are_signed_with_their_values_witness :
  headers id otherRange = ["accept"; "source"; "x-date"]
  /\ In "x-date" (headers id otherRange)
  /\ Header_index (Header noSecretRequest) "x-date" = exampleDate.
Proof.
  destruct (lower_case_headers_are_signed_with_their_values id otherRange noSecretRequest
              noSecretRequest_names_lower_case otherRange_perm) as (Hh & _ & Hv).
  split; [rewrite Hh; vm_compute; reflexivity|].
  apply (Hv "x-date" exampleDate). vm_compute. reflexivity.
Defined.

Lemma other_case_header_is_signed_without_its_value_witness :
  exists before after : string,
    headersKVString id (Header_keys (Header mixedCaseRequest)) mixedCaseRequest
    = before +:+ ("x-date" +:+ ": " +:+ LF) +:+ after.
Proof.
  apply (other_case_header_is_signed_without_its_value id
           (Header_keys (Header mixedCaseRequest)) mixedCaseRequest "X-Date" exampleDate).
  - reflexivity.
  - vm_compute. reflexivity.
  - discriminate.
  - vm_compute. reflexivity.
Defined.

Lemma client_without_credentials_sends_unsigned_witness :
  RequestHeader
    (Send_request id
       (R {| Client_Client := exampleTransport;
             Client_Option := {| Url := "https://api.example.com"; Key := "id";
                                 Secret := "" |} |}
          exampleDate "GET" "/")) !! "Authorization" = None.
Proof.
  apply (client_without_credentials_sends_unsigned id exampleTransport
           "https://api.example.com" [("id", "secret"); ("id", "")]).
  - reflexivity.
  - right. reflexivity.
Defined.

Lemma endpoints_return_the_transport_error_witness :
  Ping id unit exampleUnmarshal failingClient exampleDate
  = (None, Some "dial tcp: connection refused")
  /\ GetCountries id unit exampleUnmarshal failingClient exampleDate ["name"; "iso2"]
     = (None, Some "dial tcp: connection refused").
Proof.
  destruct (endpoints_return_the_transport_error id unit unit unit unit exampleUnmarshal
              failingClient exampleDate "8.8.8.8" "CN" "GD" ["name"; "iso2"]
              "dial tcp: connection refused") as (HPing & _ & HCountries & _).
  - intros req. reflexivity.
  - split; [exact HPing | exact HCountries].
Defined.

Lemma line_feed_in_a_value_is_signed_as_a_header_line_witness :
  signature id ["a"]
    {| OpenAPI_Client := exampleClient; Method := "GET"; Path := "/";
       Header := {[ "a" := "1" +:+ LF +:+ "b" +:+ ": " +:+ "2" ]};
       Query := None; Body := None |}
  = signature id ["b"; "a"]
      {| OpenAPI_Client := exampleClient; Method := "GET"; Path := "/";
         Header := <["a" := "1"]> {[ "b" := "2" ]};
         Query := None; Body := None |}.
Proof.
  apply (line_feed_in_a_value_is_signed_as_a_header_line id exampleClient "GET" "/"
           None None "a" "b" "1" "2" ["a"] ["b"; "a"]).
  - reflexivity.
  - reflexivity.
  - discriminate.
  - reflexivity.
  - unfold Header_keys. cbn [Header]. rewrite map_to_list_singleton. reflexivity.
  - unfold Header_keys. cbn [Header].
    rewrite map_to_list_insert by reflexivity. rewrite map_to_list_singleton.
    apply perm_swap.
Defined.

(** The endpoints on the example transport: the request of [GetCities] and
    its result with the example decoder. *)
Example GetCities_example :
  RequestURI (Send_request id
                (GetCities_request exampleClient exampleDate "CN" "Guang Dong"
                   ["name"; "latitude"]))
  = "https://api.example.com/geo/cities?country=CN&fields=name%2Clatitude&state=Guang+Dong"
  /\ GetCities id unit exampleUnmarshal exampleClient exampleDate "CN" "Guang Dong"
       ["name"; "latitude"] = (Some [], None).
Proof. vm_compute. split; reflexivity. Qed.
